(** * ciboard: the artifacts search slice and the tagging-history list

    A shallow embedding of
    - [src/slices/artifactsSlice.ts]: the redux slice [artifactsSlice]
      (reducers [artList], [isLoading], [isLoadingExtended]), the response
      shaper [responseToState] and the thunk [actLoad];
    - [src/components/ArtifactDetailedInfo.tsx]: the components
      [HistoryList] and [HistoryListEntry], and what
      [ArtifactDetailedInfoKojiBuild] and [ArtifactDetailedInfoModuleBuild]
      decide to show;
    - the test result metadata panel: [GreenwaveMetadata], [SourceLabels]
      and [TestResultMetadata].

    JavaScript values are modelled by a small JSON-like type, objects being
    finite maps from property names to values.  The thunk is written in a
    state-and-exception monad over the redux store and an event trace. *)

From stdpp Require Import gmap strings list pretty sorting.

#[local] Set Warnings "-register-all".
#[local] Open Scope Z_scope.

(** ** JavaScript values *)

(** Numbers are the integers the program handles (counts, ids, unix
    timestamps). *)
Inductive json : Type :=
  | JUndefined
  | JNull
  | JBool (b : bool)
  | JNum (n : Z)
  | JStr (s : string)
  | JArr (items : list json)
  | JObj (fields : gmap string json).

(** [value == null] *)
Definition is_nil (v : json) : bool :=
  match v with
  | JUndefined | JNull => true
  | _ => false
  end.

(** JavaScript truthiness, the test applied by [_.every] with its default
    identity predicate and by the conditional operator. *)
Definition truthy (v : json) : bool :=
  match v with
  | JUndefined | JNull => false
  | JBool b => b
  | JNum n => negb (n =? 0)
  | JStr s => negb (String.eqb s "")
  | JArr _ | JObj _ => true
  end.

Definition is_number (v : json) : bool :=
  match v with
  | JNum _ => true
  | _ => false
  end.

(** An optional field of a typed record, seen as a value. *)
Definition of_num (o : option Z) : json := from_option JNum JUndefined o.
Definition of_str (o : option string) : json := from_option JStr JUndefined o.

(** ** The lodash functions the two files call *)

Module Lodash.

(** [object[key]] for a key that is neither an index nor [length]: only
    objects carry such a property. *)
Definition prop (object : json) (key : string) : json :=
  match object with
  | JObj fields => default JUndefined (fields !! key)
  | _ => JUndefined
  end.

(** [baseGet]: walk the path while the object is not nil; the value is
    returned only when the whole path has been consumed. *)
Fixpoint baseGet (object : json) (path : list string) : json :=
  match path with
  | [] => object
  | key :: rest =>
      if is_nil object then JUndefined else baseGet (prop object key) rest
  end.

(** [_.get(object, path, defaultValue)], for a non-empty path: the default
    replaces [undefined] and nothing else. *)
Definition get (object : json) (path : list string) (defaultValue : json)
  : json :=
  match baseGet object path with
  | JUndefined => defaultValue
  | result => result
  end.

(** [_.every(collection)] with the identity predicate. *)
Definition every (collection : list json) : bool := forallb truthy collection.

(** [_.isEmpty] on an array. *)
Definition isEmpty {A} (array : list A) : bool :=
  match array with
  | [] => true
  | _ :: _ => false
  end.

Definition join (sep : string) (parts : list string) : string :=
  match parts with
  | [] => ""
  | p :: ps => fold_left (fun acc q => acc +:+ sep +:+ q) ps p
  end.

(** [baseToString]: strings as they are, arrays element by element and
    joined by commas, everything else as [value + '']. *)
Fixpoint baseToString (value : json) : string :=
  match value with
  | JStr s => s
  | JArr items => join "," (map baseToString items)
  | JUndefined => "undefined"
  | JNull => "null"
  | JBool true => "true"
  | JBool false => "false"
  | JNum n => pretty n
  | JObj _ => "[object Object]"
  end.

(** [_.toString]: nil gives the empty string. *)
Definition toString (value : json) : string :=
  if is_nil value then "" else baseToString value.

End Lodash.

(** ** The slice state, [IStateArtifacts] *)

(** An element of [artList]: the three properties [responseToState] keeps of
    every hit. *)
Record Artifact : Type := mkArtifact {
  hit_info : json;
  hit_source : json;
  greenwaveDecision : json;
}.

Record IStateArtifacts : Type := mkState {
  error : option string;
  artList : list Artifact;
  hits_info : json;
  isLoading : bool;
  totalHits : json;
  isLoadingExtended : bool;
}.

Definition empty_object : json := JObj ∅.

Definition INITIAL_STATE : IStateArtifacts :=
  {| error := None;
     artList := [];
     hits_info := empty_object;
     isLoading := false;
     totalHits := JNum 0;
     isLoadingExtended := false |}.

Record artListPayload : Type := mkPayload {
  p_hits : list Artifact;
  p_error : option string;
  p_hits_info : json;
}.

(** [_.get(action.payload, 'hits_info.total.value', 0)]: the payload is an
    object, so the first segment of the path selects its [hits_info]. *)
Definition payload_total (payload : artListPayload) : json :=
  Lodash.get (p_hits_info payload) ["total"; "value"] (JNum 0).

(** Assignments to the fields of the (draft) state. *)
Definition set_error (v : option string) (s : IStateArtifacts) :=
  mkState v (artList s) (hits_info s) (isLoading s) (totalHits s)
    (isLoadingExtended s).
Definition set_artList (v : list Artifact) (s : IStateArtifacts) :=
  mkState (error s) v (hits_info s) (isLoading s) (totalHits s)
    (isLoadingExtended s).
Definition set_hits_info (v : json) (s : IStateArtifacts) :=
  mkState (error s) (artList s) v (isLoading s) (totalHits s)
    (isLoadingExtended s).
Definition set_isLoading (v : bool) (s : IStateArtifacts) :=
  mkState (error s) (artList s) (hits_info s) v (totalHits s)
    (isLoadingExtended s).
Definition set_totalHits (v : json) (s : IStateArtifacts) :=
  mkState (error s) (artList s) (hits_info s) (isLoading s) v
    (isLoadingExtended s).
Definition set_isLoadingExtended (v : bool) (s : IStateArtifacts) :=
  mkState (error s) (artList s) (hits_info s) (isLoading s) (totalHits s) v.

Module Reducers.

Definition artList (state : IStateArtifacts) (payload : artListPayload)
  : IStateArtifacts :=
  let state := set_error (p_error payload) state in
  let state := set_artList (p_hits payload) state in
  let state := set_hits_info (p_hits_info payload) state in
  let state := set_isLoading false state in
  let state := set_isLoadingExtended false state in
  set_totalHits (payload_total payload) state.

Definition isLoading (state : IStateArtifacts) (payload : bool)
  : IStateArtifacts :=
  let isLoading := payload in
  let state := set_isLoading isLoading state in
  if isLoading then
    let state := set_hits_info empty_object state in
    let state := set_artList [] state in
    set_error None state
  else state.

Definition isLoadingExtended (state : IStateArtifacts) (payload : bool)
  : IStateArtifacts :=
  let isLoadingExtended := payload in
  set_isLoadingExtended isLoadingExtended state.

End Reducers.

(** The actions of the slice and its reducer. *)
Inductive action : Type :=
  | actArtList (payload : artListPayload)
  | actIsLoading (payload : bool)
  | actIsLoadingExtended (payload : bool).

Definition artifactsReducer (state : IStateArtifacts) (a : action)
  : IStateArtifacts :=
  match a with
  | actArtList payload => Reducers.artList state payload
  | actIsLoading payload => Reducers.isLoading state payload
  | actIsLoadingExtended payload => Reducers.isLoadingExtended state payload
  end.

(** ** The thunk [actLoad] *)

(** What a [catch] clause can receive: an [Error] object (for which
    [_.isError] holds) or any other thrown value. *)
Inductive thrown : Type :=
  | ThrowError (message : string)
  | ThrowValue (value : json).

Definition isError (e : thrown) : bool :=
  match e with
  | ThrowError _ => true
  | ThrowValue _ => false
  end.

Inductive QueryDocument : Type :=
  | ArtifactsSearchFastQuery1
  | ArtifactsSearchSlowQuery2.

(** Modelled from the spec: the slice [artifactsCurrentQuery] read through
    [getState] is declared outside the files at hand; the spec lists its
    fields as the bundle [{ sortBy, artTypes, newerThen, queryString,
    doDeepSearch, paginationSize, page }].  The thunk only copies the first
    five, so they stay opaque values. *)
Record CurrentQuery : Type := mkCurrentQuery {
  page : Z;
  sortBy : json;
  artTypes : json;
  newerThen : json;
  queryString : json;
  doDeepSearch : json;
  paginationSize : Z;
}.

Record QueryVars : Type := mkQueryVars {
  v_sortBy : json;
  v_artTypes : json;
  v_newerThen : json;
  v_queryString : json;
  v_doDeepSearch : json;
  v_paginationSize : Z;
  v_paginationFrom : Z;
}.

(** [QueryOptions]; [errorPolicy], [fetchPolicy] and
    [notifyOnNetworkStatusChange] are the same constants in every query. *)
Record QueryOptions : Type := mkQuery {
  query : QueryDocument;
  variables : QueryVars;
}.

(** The result of a query as [responseToState] reads it:
    [response.data.artifacts], with [hits] an array or nil, each level
    possibly nil. *)
Record artifacts_t : Type := mkArtifacts {
  a_hits : option (list json);
  a_hits_info : json;
}.
Record data_t : Type := mkData { artifacts : option artifacts_t }.
Record response : Type := mkResponse { data : option data_t }.

(** What the thunk does to the outside: dispatches to the store and queries
    sent through the client, in program order. *)
Inductive event : Type :=
  | EvDispatch (a : action)
  | EvQuery (q : QueryOptions).

Record world : Type := mkWorld {
  store : IStateArtifacts;
  trace : list event;
}.

(** Computations that read and write the world and either return or throw. *)
Definition M (A : Type) : Type := world -> (thrown + A) * world.

#[global] Instance M_ret : MRet M := fun A x w => (inr x, w).
#[global] Instance M_bind : MBind M := fun A B f m w =>
  match m w with
  | (inl e, w') => (inl e, w')
  | (inr x, w') => f x w'
  end.

Definition lift {A} (r : thrown + A) : M A := fun w => (r, w).

Definition try_catch {A} (body : M A) (handler : thrown -> M A) : M A :=
  fun w =>
    match body w with
    | (inl e, w') => handler e w'
    | (inr x, w') => (inr x, w')
    end.

Definition dispatch (a : action) : M unit := fun w =>
  (inr tt,
   {| store := artifactsReducer (store w) a;
      trace := trace w ++ [EvDispatch a] |}).

Section Loader.

(** [await client.query(query)]: the promise resolves to a response or
    rejects with a value. *)
Variable client : QueryOptions -> thrown + response.

(** The message of the [TypeError] the engine raises when a property of a
    nil value is read, given the property's name. *)
Variable TypeError_message : string -> string.

Definition client_query (q : QueryOptions) : M response := fun w =>
  (client q, {| store := store w; trace := trace w ++ [EvQuery q] |}).

Definition TypeError {A} (property : string) : thrown + A :=
  inl (ThrowError (TypeError_message property)).

(** The arrow function mapped over the hits: destructuring a nil hit
    throws. *)
Definition shape_hit (hit : json) : thrown + Artifact :=
  if is_nil hit then TypeError "hit_info"
  else inr {| hit_info := Lodash.prop hit "hit_info";
              hit_source := Lodash.prop hit "hit_source";
              greenwaveDecision := Lodash.prop hit "greenwaveDecision" |}.

(** [_.map(hits_, ...)], stopping at the first hit that throws. *)
Fixpoint map_hits (hits_ : list json) : thrown + list Artifact :=
  match hits_ with
  | [] => inr []
  | hit :: rest =>
      match shape_hit hit with
      | inl e => inl e
      | inr a =>
          match map_hits rest with
          | inl e => inl e
          | inr l => inr (a :: l)
          end
      end
  end.

Definition responseToState (r : response) : thrown + artListPayload :=
  match data r with
  | None => TypeError "artifacts"
  | Some d =>
      match artifacts d with
      | None => TypeError "hits"
      | Some a =>
          match map_hits (default [] (a_hits a)) with
          | inl e => inl e
          | inr hits =>
              inr {| p_hits := hits;
                     p_error := None;
                     p_hits_info := a_hits_info a |}
          end
      end
  end.

Definition zero_hits_info : json :=
  JObj {[ "total" := JObj {[ "value" := JNum 0 ]} ]}.

(** The text the [catch] clause extracts from what was thrown:
    [error.message] when [_.isError(error)], [_.toString(error)]
    otherwise. *)
Definition errorText (error : thrown) : string :=
  match error with
  | ThrowError message => message
  | ThrowValue value => Lodash.toString value
  end.

Definition fast_query (cq : CurrentQuery) : QueryOptions :=
  let paginationFrom := (page cq - 1) * paginationSize cq in
  {| query := ArtifactsSearchFastQuery1;
     variables :=
       {| v_sortBy := sortBy cq;
          v_artTypes := artTypes cq;
          v_newerThen := newerThen cq;
          v_queryString := queryString cq;
          v_doDeepSearch := doDeepSearch cq;
          v_paginationSize := paginationSize cq;
          v_paginationFrom := paginationFrom |} |}.

(** [query.query = ArtifactsSearchSlowQuery2] *)
Definition slow_query (cq : CurrentQuery) : QueryOptions :=
  {| query := ArtifactsSearchSlowQuery2;
     variables := variables (fast_query cq) |}.

(** The [try] block. *)
Definition actLoad_try (cq : CurrentQuery) : M unit :=
  dispatch (actIsLoading true) ;;
  let query := fast_query cq in
  response ← client_query query;
  artList ← lift (responseToState response);
  dispatch (actArtList artList) ;;
  (* Second stage *)
  if Lodash.isEmpty (p_hits artList) then
    (* No results, skip second query *)
    mret tt
  else
    let query := slow_query cq in
    dispatch (actIsLoadingExtended true) ;;
    response ← client_query query;
    artList ← lift (responseToState response);
    dispatch (actArtList artList).

(** The [catch] clause. *)
Definition actLoad_catch (error : thrown) : M unit :=
  dispatch
    (actArtList {| p_hits := [];
                   p_hits_info := zero_hits_info;
                   p_error := Some (errorText error) |}).

Definition actLoad (cq : CurrentQuery) : M unit :=
  try_catch (actLoad_try cq) actLoad_catch.

(** Running the thunk against a store: the final world. *)
Definition run_actLoad (cq : CurrentQuery) (s : IStateArtifacts) : world :=
  snd (actLoad cq {| store := s; trace := [] |}).

End Loader.

(** ** The tagging history: [HistoryList] and [HistoryListEntry] *)

(** Modelled from the spec: the type [KojiBuildTagging] is declared in
    [src/artifact], outside the files at hand; its fields are the ones
    [HistoryList] reads, the three revoke fields being optional as their
    non-null assertions in the component and the spec's record
    [{tagName, active, createTimestamp, creatorId, creatorName,
    revokeTimestamp?, revokerId?, revokerName?}] say. *)
Record KojiBuildTagging : Type := mkTagging {
  active : bool;
  create_ts : Z;
  creator_id : Z;
  creator_name : string;
  tag_name : string;
  revoke_ts : option Z;
  revoker_id : option Z;
  revoker_name : option string;
}.

Record TagActionHistoryType : Type := mkLine {
  l_action : string;
  l_active : bool;
  l_person_id : Z;
  l_person_name : string;
  l_tag_name : string;
  l_time : Z;
}.

Definition tagged_line (e : KojiBuildTagging) : TagActionHistoryType :=
  {| l_action := "tagged into";
     l_active := active e;
     l_time := create_ts e;
     l_tag_name := tag_name e;
     l_person_id := creator_id e;
     l_person_name := creator_name e |}.

(** [_.every([e.revoke_ts, e.revoker_name, e.revoker_id])] *)
Definition revoke_gate (e : KojiBuildTagging) : bool :=
  Lodash.every
    [of_num (revoke_ts e); of_str (revoker_name e); of_num (revoker_id e)].

(** What one iteration of the [_.forEach] callback pushes on [lines].  Past
    the gate the three fields are not nil, which is what the non-null
    assertions of the source rely on. *)
Definition push_lines (e : KojiBuildTagging) : list TagActionHistoryType :=
  tagged_line e ::
  (if revoke_gate e then
     match revoke_ts e, revoker_id e, revoker_name e with
     | Some ts, Some id, Some name =>
         [{| l_action := "untagged from";
             l_active := false;
             l_time := ts;
             l_tag_name := tag_name e;
             l_person_id := id;
             l_person_name := name |}]
     | _, _, _ => []
     end
   else []).

Definition history_lines (history : list KojiBuildTagging)
  : list TagActionHistoryType :=
  flat_map push_lines history.

(** [_.orderBy(lines, ['time'], ['asc'])] is a stable sort: lodash compares
    the [time] criteria and breaks ties by the original index.  Stable
    insertion puts a line before the first later line whose time is not
    smaller. *)
Fixpoint insert_by_time (x : TagActionHistoryType)
    (sorted : list TagActionHistoryType) : list TagActionHistoryType :=
  match sorted with
  | [] => [x]
  | y :: rest =>
      if l_time x <=? l_time y then x :: y :: rest
      else y :: insert_by_time x rest
  end.

Definition orderBy_time (lines : list TagActionHistoryType)
  : list TagActionHistoryType :=
  foldr insert_by_time [] lines.

Section Rendering.

(** [moment.unix(time).local()] formatted with ['YYYY-MM-DD, HH:mm'] and
    with ['ZZ']: both depend on the time zone of the browser. *)
Variable format_local : Z -> string.
Variable format_shift : Z -> string.

Definition flag (entry : TagActionHistoryType) : string :=
  if l_active entry then "[still active]" else "".

(** The text of the [div] rendered by [HistoryListEntry]. *)
Definition HistoryListEntry (entry : TagActionHistoryType) : string :=
  format_local (l_time entry) +:+ " " +:+ format_shift (l_time entry)
    +:+ " " +:+ l_action entry +:+ " " +:+ l_tag_name entry +:+ " by "
    +:+ l_person_name entry +:+ " " +:+ flag entry.

(** The entries [HistoryList] maps over, in display order; [None] when the
    history is nil and the component renders nothing. *)
Definition HistoryList_log (history : option (list KojiBuildTagging))
  : option (list TagActionHistoryType) :=
  match history with
  | None => None
  | Some history => Some (orderBy_time (history_lines history))
  end.

(** The list items of [HistoryList]: the key and the text of each. *)
Definition HistoryList (history : option (list KojiBuildTagging))
  : option (list (string * string)) :=
  match HistoryList_log history with
  | None => None
  | Some log =>
      Some (map (fun entry =>
                   (l_action entry +:+ pretty (l_time entry),
                    HistoryListEntry entry)) log)
  end.

End Rendering.

(** ** Notions used in the statements, and concrete inputs *)

(** The claim C5 as it is written: [isLoading(true)] sets the flag, empties
    the results, clears the error and modifies no other field. *)
Definition isLoading_true_modifies_nothing_else (s : IStateArtifacts) : Prop :=
  let s' := artifactsReducer s (actIsLoading true) in
  isLoading s' = true /\
  artList s' = [] /\
  error s' = None /\
  totalHits s' = totalHits s /\
  isLoadingExtended s' = isLoadingExtended s /\
  hits_info s' = hits_info s.

(** A state as the store holds it after a publish of two hits out of ten. *)
Definition state_after_fast_publish : IStateArtifacts :=
  {| error := None;
     artList := [mkArtifact (JStr "a") JNull JNull;
                 mkArtifact (JStr "b") JNull JNull];
     hits_info := JObj {[ "total" := JObj {[ "value" := JNum 10 ]} ]};
     isLoading := false;
     totalHits := JNum 10;
     isLoadingExtended := false |}.

(** The claim C10 as it is written: whatever the payload, the total
    published by [artList] is a number. *)
Definition totalHits_is_number (p : artListPayload) : Prop :=
  forall s, is_number (totalHits (artifactsReducer s (actArtList p))) = true.

(** A payload whose [hits_info.total.value] is [null]. *)
Definition payload_null_total : artListPayload :=
  {| p_hits := [];
     p_error := None;
     p_hits_info := JObj {[ "total" := JObj {[ "value" := JNull ]} ]} |}.

(** The payload published by the [catch] clause and the state it leaves. *)
Definition failure_payload (message : string) : artListPayload :=
  {| p_hits := [];
     p_hits_info := zero_hits_info;
     p_error := Some message |}.

Definition failed_state (message : string) : IStateArtifacts :=
  {| error := Some message;
     artList := [];
     hits_info := zero_hits_info;
     isLoading := false;
     totalHits := JNum 0;
     isLoadingExtended := false |}.

Definition published_state (p : artListPayload) : IStateArtifacts :=
  {| error := p_error p;
     artList := p_hits p;
     hits_info := p_hits_info p;
     isLoading := false;
     totalHits := Lodash.get (p_hits_info p) ["total"; "value"] (JNum 0);
     isLoadingExtended := false |}.

(** The events up to the slow query, when the fast one gave hits. *)
Definition second_stage_prefix (cq : CurrentQuery) (p : artListPayload) : list event :=
  [EvDispatch (actIsLoading true);
   EvQuery (fast_query cq);
   EvDispatch (actArtList p);
   EvDispatch (actIsLoadingExtended true);
   EvQuery (slow_query cq)].

(** The store as it stands after the events of a trace: the dispatches
    applied in order to the initial state. *)
Definition replay (s : IStateArtifacts) (events : list event)
  : IStateArtifacts :=
  fold_left
    (fun st ev =>
       match ev with
       | EvDispatch a => artifactsReducer st a
       | EvQuery _ => st
       end)
    events s.

Definition is_slow_query (ev : event) : bool :=
  match ev with
  | EvQuery {| query := ArtifactsSearchSlowQuery2 |} => true
  | _ => false
  end.

Definition time_le (a b : TagActionHistoryType) : Prop := l_time a <= l_time b.

Definition untagged_line (e : KojiBuildTagging) (ts id : Z) (name : string)
  : TagActionHistoryType :=
  {| l_action := "untagged from";
     l_active := false;
     l_time := ts;
     l_tag_name := tag_name e;
     l_person_id := id;
     l_person_name := name |}.

(** An [Untagged] entry is pushed for the record. *)
Definition emits_untagged (e : KojiBuildTagging) : Prop :=
  exists line, line ∈ push_lines e /\ l_action line = "untagged from".

(** The three revoke fields are present. *)
Definition revoke_present (e : KojiBuildTagging) : Prop :=
  is_Some (revoke_ts e) /\ is_Some (revoker_id e) /\ is_Some (revoker_name e).

(** The three revoke fields are truthy: present, the numbers not 0 and the
    name not empty. *)
Definition revoke_truthy (e : KojiBuildTagging) (ts id : Z) (name : string)
  : Prop :=
  revoke_ts e = Some ts /\ revoker_id e = Some id /\
  revoker_name e = Some name /\ ts <> 0 /\ id <> 0 /\ name <> "".

(** A revoked tagging whose revoker has id 0. *)
Definition tagging_revoked_by_id_0 : KojiBuildTagging :=
  {| active := false;
     create_ts := 100;
     creator_id := 1;
     creator_name := "a";
     tag_name := "t1";
     revoke_ts := Some 200;
     revoker_id := Some 0;
     revoker_name := Some "b" |}.

Definition sample_TypeError_message (property : string) : string :=
  "Cannot read properties of undefined (reading '" +:+ property +:+ "')".

Definition sample_query : CurrentQuery :=
  {| page := 2;
     sortBy := JStr "taskId";
     artTypes := JArr [JStr "brew-build"];
     newerThen := JStr "3";
     queryString := JStr "kernel";
     doDeepSearch := JBool false;
     paginationSize := 20 |}.

Definition sample_hit (id : Z) : json :=
  JObj {[ "hit_info" := JObj {[ "_id" := JNum id ]};
          "hit_source" := JObj {[ "taskId" := JNum id ]} ]}.

Definition total_of (n : Z) : json :=
  JObj {[ "total" := JObj {[ "value" := JNum n ]} ]}.

Definition response_of (hits : list json) (total : Z) : response :=
  {| data := Some {| artifacts := Some {| a_hits := Some hits;
                                          a_hits_info := total_of total |} |} |}.

(** Two hits out of ten, then five. *)
Definition fast_response : response :=
  response_of [sample_hit 1; sample_hit 2] 10.
Definition slow_response : response :=
  response_of [sample_hit 1; sample_hit 2; sample_hit 3; sample_hit 4;
               sample_hit 5] 10.
Definition empty_response : response := response_of [] 0.

Definition client_fast_rejects (q : QueryOptions) : thrown + response :=
  inl (ThrowError "Network error").

Definition client_slow_rejects (q : QueryOptions) : thrown + response :=
  match query q with
  | ArtifactsSearchFastQuery1 => inr fast_response
  | ArtifactsSearchSlowQuery2 => inl (ThrowValue (JNum 503))
  end.

Definition client_no_hits (q : QueryOptions) : thrown + response :=
  inr empty_response.

Definition client_resolves (q : QueryOptions) : thrown + response :=
  match query q with
  | ArtifactsSearchFastQuery1 => inr fast_response
  | ArtifactsSearchSlowQuery2 => inr slow_response
  end.

Definition empty_error_state (st : IStateArtifacts) (message : string)
  : Prop :=
  artList st = [] /\ totalHits st = JNum 0 /\ error st = Some message /\
  isLoading st = false /\ isLoadingExtended st = false.

(** The record of the full revoke, and two records tagged at 300 and 100. *)
Definition tagging_full_revoke : KojiBuildTagging :=
  {| active := false;
     create_ts := 100;
     creator_id := 1;
     creator_name := "a";
     tag_name := "t1";
     revoke_ts := Some 200;
     revoker_id := Some 2;
     revoker_name := Some "b" |}.

Definition tagging_at (ts : Z) (tag : string) : KojiBuildTagging :=
  {| active := true;
     create_ts := ts;
     creator_id := 1;
     creator_name := "a";
     tag_name := tag;
     revoke_ts := None;
     revoker_id := None;
     revoker_name := None |}.

(** ** The rest of the two components and of the metadata panel *)

(** Further lodash functions: [_.isEmpty] on any value (nil, booleans and
    numbers have no own enumerable property, so they are empty), on an
    array that may be nil, and [_.first]. *)
Definition isEmpty_value (value : json) : bool :=
  match value with
  | JUndefined | JNull | JBool _ | JNum _ => true
  | JStr s => String.eqb s ""
  | JArr items => Lodash.isEmpty items
  | JObj fields => Nat.eqb (size fields) 0
  end.

Definition isEmpty_array {A} (array : option (list A)) : bool :=
  match array with
  | None => true
  | Some items => Lodash.isEmpty items
  end.

Definition first {A} (array : option (list A)) : option A :=
  match array with
  | Some (x :: _) => Some x
  | _ => None
  end.

(** Optional chaining, [object?.property]. *)
Definition chain {A B} (object : option A) (property : A -> option B)
  : option B :=
  match object with
  | None => None
  | Some o => property o
  end.

(** The queries of a trace, in the order they were sent. *)
Definition queries_of (events : list event) : list QueryOptions :=
  omap (fun ev => match ev with
                  | EvQuery q => Some q
                  | EvDispatch _ => None
                  end) events.

(** What [responseToState] keeps of a hit that is not nil. *)
Definition shaped_hit (hit : json) : Artifact :=
  {| hit_info := Lodash.prop hit "hit_info";
     hit_source := Lodash.prop hit "hit_source";
     greenwaveDecision := Lodash.prop hit "greenwaveDecision" |}.

(** The key React is given for an entry of the history list. *)
Definition entry_key (entry : TagActionHistoryType) : string :=
  l_action entry +:+ pretty (l_time entry).

Section KojiBuildView.

(** [KojiBuildInfo] and the shape of the query data are declared outside
    the files at hand: the build is kept abstract, with the one path the
    component follows into it, [build?.history?.tag_listing]. *)
Variable KojiBuildInfo : Type.
Variable tag_listing : KojiBuildInfo -> option (list KojiBuildTagging).

Record koji_task_t : Type := mkKojiTask {
  builds : option (list (option KojiBuildInfo));
}.

Record ArtifactsDetailedInfoKojiTaskData : Type := mkKojiTaskData {
  koji_task : option koji_task_t;
}.

(** The props the component hands to the panels of its first three tabs. *)
Record KojiBuildTabs : Type := mkKojiBuildTabs {
  NoData_show : bool;
  LoadingData_show : bool;
  BuildInfo_build : option KojiBuildInfo;
  TagsList_build : option KojiBuildInfo;
  HistoryList_history : option (list KojiBuildTagging);
}.

(** [ArtifactDetailedInfoKojiBuild], from the two results of its first
    [useQuery]: [loading] and [data]. *)
Definition ArtifactDetailedInfoKojiBuild (loadingCurrentState : bool)
    (dataKojiTask : option ArtifactsDetailedInfoKojiTaskData)
  : KojiBuildTabs :=
  let haveData :=
    negb loadingCurrentState &&
    match dataKojiTask with
    | None => false
    | Some d => negb (isEmpty_array (chain (koji_task d) builds))
    end in
  let build := chain (first (chain (chain dataKojiTask koji_task) builds)) (fun b => b) in
  {| NoData_show := negb haveData && negb loadingCurrentState;
     LoadingData_show := loadingCurrentState;
     BuildInfo_build := build;
     TagsList_build := build;
     HistoryList_history := chain build tag_listing |}.

(** [NoData] and [LoadingData] render when [show] holds, [BuildInfo] and
    [TagsList] when their build is not nil. *)
Definition renders_NoData (t : KojiBuildTabs) : bool := NoData_show t.
Definition renders_LoadingData (t : KojiBuildTabs) : bool :=
  LoadingData_show t.
Definition renders_BuildInfo (t : KojiBuildTabs) : bool :=
  bool_decide (is_Some (BuildInfo_build t)).
Definition renders_TagsList (t : KojiBuildTabs) : bool :=
  bool_decide (is_Some (TagsList_build t)).

End KojiBuildView.

Record ArtifactsDetailedInfoModuleBuildData : Type := mkModuleBuildData {
  mbs_build : json;
}.

(** What [ArtifactDetailedInfoModuleBuild] returns: the alert "No build
    information available", [null] after logging "No build found in data.",
    or the tabs for a build; reading [data.mbs_build] of a nil [data] would
    throw. *)
Inductive ModuleBuildView : Type :=
  | NoBuildInformation
  | NoBuildFound
  | ModuleBuildThrows
  | ModuleBuildTabs (build : json).

Definition ArtifactDetailedInfoModuleBuild (loading : bool)
    (data_ : option ArtifactsDetailedInfoModuleBuildData) : ModuleBuildView :=
  let haveData :=
    negb loading &&
    match data_ with
    | None => false
    | Some d => negb (isEmpty_value (mbs_build d))
    end in
  if negb haveData then NoBuildInformation
  else
    match data_ with
    | None => ModuleBuildThrows
    | Some d =>
        let build := mbs_build d in
        if is_nil build then NoBuildFound else ModuleBuildTabs build
    end.

(** The Greenwave part of a test result, as [GreenwaveMetadata] reads it.
    The type [ChildGreenwave] is declared outside the files at hand; the
    fields are the ones the function reads, all of them optional. *)
Record GreenwaveResult : Type := mkGreenwaveResult {
  gr_href : option string;
  gr_id : Z;
  gr_submit_time : option string;
  gr_outcome : option string;
  gr_ref_url : option string;
}.

Record GreenwaveRequirement : Type := mkGreenwaveRequirement {
  rq_type : option string;
  rq_scenario : option string;
  rq_source : option string;
}.

Record ChildGreenwave : Type := mkChildGreenwave {
  cg_result : option GreenwaveResult;
  cg_requirement : option GreenwaveRequirement;
}.

(** The value of an item: nil, a string, an [ExternalLink] or a [time]
    element. *)
Inductive item_value : Type :=
  | VNil
  | VText (text : string)
  | VLink (href text : string)
  | VTime (dateTime text : string).

Definition value_is_nil (v : item_value) : bool :=
  match v with
  | VNil => true
  | _ => false
  end.

(** [s && k(s)] for an optional string [s]: nil and the empty string are
    falsy and are the value of the conjunction. *)
Definition and_then_str (s : option string) (k : string -> string)
  : option string :=
  match s with
  | None => None
  | Some t => if String.eqb t "" then Some "" else Some (k t)
  end.

Definition and_then_value (s : option string) (k : string -> item_value)
  : item_value :=
  match s with
  | None => VNil
  | Some t => if String.eqb t "" then VText "" else k t
  end.

Definition value_of_str (s : option string) : item_value :=
  from_option VText VNil s.

Section GreenwaveMetadata.

(** [timestampToTimestampWithTz] of [utils/timeUtils]: it formats in the
    time zone of the browser. *)
Variable timestampToTimestampWithTz : string -> string.

Definition greenwave_items (aChild : ChildGreenwave)
  : list (string * item_value) :=
  let submitTimeTz :=
    and_then_str (chain (cg_result aChild) gr_submit_time)
      (fun t => t +:+ "Z") in
  let submitTimeReadable :=
    and_then_str submitTimeTz timestampToTimestampWithTz in
  [ ("ResultsDB",
     and_then_value (chain (cg_result aChild) gr_href)
       (fun href =>
          VLink href
            ("Result #" +:+
             pretty (from_option gr_id 0 (cg_result aChild)))));
    ("Timestamp",
     and_then_value submitTimeReadable
       (fun readable => VTime (default "" submitTimeTz) readable));
    ("Req. type", value_of_str (chain (cg_requirement aChild) rq_type));
    ("Req. scenario", value_of_str (chain (cg_requirement aChild) rq_scenario));
    ("Req. source",
     and_then_value (chain (cg_requirement aChild) rq_source)
       (fun source => VLink source "Link"));
    ("Outcome", value_of_str (chain (cg_result aChild) gr_outcome));
    ("Ref. URL",
     and_then_value (chain (cg_result aChild) gr_ref_url)
       (fun ref_url => VLink ref_url "Link")) ].

(** The groups of the description list: the items whose value is not
    nil. *)
Definition GreenwaveMetadata (aChild : ChildGreenwave)
  : list (string * item_value) :=
  filter (fun item => value_is_nil (snd item) = false)
    (greenwave_items aChild).

End GreenwaveMetadata.

Section TestResultMetadata.

(** The union [ArtifactChild], its three type guards and the parts the
    panel reads are declared in [types], outside the files at hand: the
    child seen as a Greenwave or as a test-message child once a guard holds,
    and the two halves [gs] and [ms] of a combined child. *)
Variable ArtifactChild ChildTestMsg : Type.
Variable isGreenwaveChild isChildTestMsg isGreenwaveAndTestMsg
  : ArtifactChild -> bool.
Variable as_greenwave : ArtifactChild -> ChildGreenwave.
Variable as_test_msg : ArtifactChild -> ChildTestMsg.
Variable gs : ArtifactChild -> ChildGreenwave.
Variable ms : ArtifactChild -> ChildTestMsg.

(** The labels of [SourceLabels], in order. *)
Definition SourceLabels (aChild : ArtifactChild) : list string :=
  (if isGreenwaveChild aChild || isGreenwaveAndTestMsg aChild
   then ["Greenwave"] else []) ++
  (if isChildTestMsg aChild || isGreenwaveAndTestMsg aChild
   then ["UMB"] else []).

(** The metadata blocks below the labels, each after a divider. *)
Inductive metadata_block : Type :=
  | GreenwaveBlock (aChild : ChildGreenwave)
  | KaiBlock (aChild : ChildTestMsg).

Definition metadata_blocks (aChild : ArtifactChild) : list metadata_block :=
  (if isGreenwaveChild aChild then [GreenwaveBlock (as_greenwave aChild)]
   else []) ++
  (if isChildTestMsg aChild then [KaiBlock (as_test_msg aChild)] else []) ++
  (if isGreenwaveAndTestMsg aChild
   then [GreenwaveBlock (gs aChild); KaiBlock (ms aChild)] else []).

(** [TestResultMetadata], from the artifact and the selected test of the
    context (its [originalState] is the child): nothing when either is
    missing, else the labels and the blocks. *)
Definition TestResultMetadata {A} (artifact : option A)
    (selectedTest : option ArtifactChild)
  : option (list string * list metadata_block) :=
  match artifact, selectedTest with
  | Some _, Some aChild => Some (SourceLabels aChild, metadata_blocks aChild)
  | _, _ => None
  end.

End TestResultMetadata.

(** Concrete inputs for the panels. *)
Definition client_unshaped (q : QueryOptions) : thrown + response :=
  inr (mkResponse (Some (mkData None))).

Definition tagging_revoked_before_created : KojiBuildTagging :=
  {| active := false;
     create_ts := 500;
     creator_id := 1;
     creator_name := "a";
     tag_name := "t5";
     revoke_ts := Some 400;
     revoker_id := Some 2;
     revoker_name := Some "b" |}.

Definition sample_koji_data
  : option (ArtifactsDetailedInfoKojiTaskData KojiBuildTagging) :=
  Some (mkKojiTaskData _
          (Some (mkKojiTask _ (Some [Some tagging_full_revoke])))).

Definition sample_module_data : option ArtifactsDetailedInfoModuleBuildData :=
  Some (mkModuleBuildData (JObj {[ "id" := JNum 7 ]})).

Definition sample_greenwave_child : ChildGreenwave :=
  {| cg_result :=
       Some {| gr_href := Some "";
               gr_id := 42;
               gr_submit_time := Some "2023-07-19T12:14:02.630361";
               gr_outcome := Some "PASSED";
               gr_ref_url := None |};
     cg_requirement := None |}.

(** * Properties *)

(** ** The reducers *)

Lemma baseGet_total_value (fields total : gmap string json) (v : json) :
  fields !! "total" = Some (JObj total) ->
  total !! "value" = Some v ->
  Lodash.baseGet (JObj fields) ["total"; "value"] = v.
Proof. intros Ht Hv. simpl. rewrite Ht. simpl. rewrite Hv. reflexivity. Qed.

Lemma get_not_undefined (object : json) (path : list string) (d : json) :
  d <> JUndefined -> Lodash.get object path d <> JUndefined.
Proof.
  intros Hd. unfold Lodash.get.
  destruct (Lodash.baseGet object path); try discriminate. exact Hd.
Qed.

(** Success payloads carry no error. *)
Lemma responseToState_no_error TE (r : response) (p : artListPayload) :
  responseToState TE r = inr p -> p_error p = None.
Proof.
  unfold responseToState. intros H.
  destruct (data r) as [d|]; [|discriminate].
  destruct (artifacts d) as [a|]; [|discriminate].
  destruct (map_hits TE _); [discriminate|].
  injection H as <-. reflexivity.
Qed.

(** C6: every [artList] publish forces [isLoading] and [isLoadingExtended] to
    false, replaces the results by the payload's hits, replaces the total by
    the one read from the payload and sets [error] from the payload; a
    payload shaped from a response carries no error, so a success publish
    clears [error]. *)
Theorem artList_publish (s : IStateArtifacts) (p : artListPayload) :
  let s' := artifactsReducer s (actArtList p) in
  isLoading s' = false /\
  isLoadingExtended s' = false /\
  artList s' = p_hits p /\
  totalHits s' = Lodash.get (p_hits_info p) ["total"; "value"] (JNum 0) /\
  error s' = p_error p /\
  (forall TE r, responseToState TE r = inr p -> error s' = None).
Proof.
  simpl. repeat split.
  intros TE r H. exact (responseToState_no_error TE r p H).
Qed.

(** C7: the [isLoadingExtended] action changes the [isLoadingExtended] flag
    and nothing else: results, total, error, [isLoading] (and [hits_info])
    are the ones of the state before. *)
Theorem isLoadingExtended_frame (s : IStateArtifacts) (b : bool) :
  let s' := artifactsReducer s (actIsLoadingExtended b) in
  isLoadingExtended s' = b /\
  artList s' = artList s /\
  totalHits s' = totalHits s /\
  error s' = error s /\
  isLoading s' = isLoading s /\
  hits_info s' = hits_info s.
Proof. simpl. repeat split. Qed.

Lemma empty_object_neq_total :
  empty_object <> JObj {[ "total" := JObj {[ "value" := JNum 10 ]} ]}.
Proof.
  intros H. apply (f_equal (fun v => Lodash.prop v "total")) in H.
  vm_compute in H. discriminate H.
Qed.

(** C5, counterexample: [isLoading(true)] also resets [hits_info]. *)
Lemma isLoading_true_resets_hits_info :
  ~ isLoading_true_modifies_nothing_else state_after_fast_publish.
Proof.
  unfold isLoading_true_modifies_nothing_else. simpl.
  intros (_ & _ & _ & _ & _ & H). exact (empty_object_neq_total H).
Qed.

(** C5, amended: [isLoading(true)] sets the flag, empties the results,
    clears the error and resets [hits_info] to the empty object; the total
    and [isLoadingExtended] are left as they were. *)
Theorem isLoading_true_effect (s : IStateArtifacts) :
  let s' := artifactsReducer s (actIsLoading true) in
  isLoading s' = true /\
  artList s' = [] /\
  error s' = None /\
  hits_info s' = empty_object /\
  totalHits s' = totalHits s /\
  isLoadingExtended s' = isLoadingExtended s.
Proof. simpl. repeat split. Qed.

(** The path [total.value] leads nowhere exactly when [hits_info] is nil,
    its [total] is nil (or missing), or the [value] of that is missing. *)
Lemma baseGet_total_value_undefined (hi : json) :
  Lodash.baseGet hi ["total"; "value"] = JUndefined <->
  is_nil hi = true \/
  is_nil (Lodash.prop hi "total") = true \/
  Lodash.prop (Lodash.prop hi "total") "value" = JUndefined.
Proof.
  simpl. destruct (is_nil hi) eqn:Hn.
  - split; auto.
  - destruct (is_nil (Lodash.prop hi "total")) eqn:Ht.
    + split; auto.
    + split; [auto|]. intros [H|[H|H]]; [discriminate..|exact H].
Qed.

(** C10, counterexample: the default of [_.get] replaces [undefined] only, so
    a [null] at [hits_info.total.value] is published as the total. *)
Lemma totalHits_null_total :
  totalHits (artifactsReducer INITIAL_STATE (actArtList payload_null_total))
    = JNull /\
  ~ totalHits_is_number payload_null_total.
Proof.
  split; [reflexivity|].
  intros H. specialize (H INITIAL_STATE). vm_compute in H. discriminate H.
Qed.

(** C10, amended: after an [artList] dispatch the total is the value found at
    [hits_info.total.value] when that path yields anything but [undefined],
    and 0 when it yields [undefined] (a nil or missing step on the path); so
    the total is never [undefined], and it is a number whenever the value at
    the path, if there is one, is a number. *)
Theorem totalHits_after_artList (s : IStateArtifacts) (p : artListPayload) :
  let found := Lodash.baseGet (p_hits_info p) ["total"; "value"] in
  let t := totalHits (artifactsReducer s (actArtList p)) in
  t <> JUndefined /\
  (found <> JUndefined -> t = found) /\
  (found = JUndefined -> t = JNum 0) /\
  (forall fields total n,
     p_hits_info p = JObj fields ->
     fields !! "total" = Some (JObj total) ->
     total !! "value" = Some (JNum n) ->
     t = JNum n) /\
  (is_nil (p_hits_info p) = true \/
   is_nil (Lodash.prop (p_hits_info p) "total") = true \/
   Lodash.prop (Lodash.prop (p_hits_info p) "total") "value" = JUndefined ->
   t = JNum 0) /\
  (found = JUndefined \/ is_number found = true -> is_number t = true).
Proof.
  intros found t.
  assert (Ht : t = Lodash.get (p_hits_info p) ["total"; "value"] (JNum 0))
    by reflexivity.
  assert (Hdef : found <> JUndefined -> t = found).
  { intros Hf. rewrite Ht. unfold Lodash.get. fold found.
    destruct found; congruence. }
  assert (Hundef : found = JUndefined -> t = JNum 0).
  { intros Hf. rewrite Ht. unfold Lodash.get. fold found.
    rewrite Hf. reflexivity. }
  split; [|split; [|split; [|split; [|split]]]].
  - rewrite Ht. apply get_not_undefined. discriminate.
  - exact Hdef.
  - exact Hundef.
  - intros fields total n Hhi Htot Hval.
    assert (Hf : found = JNum n).
    { unfold found. rewrite Hhi. exact (baseGet_total_value _ _ _ Htot Hval). }
    rewrite Hdef; [exact Hf|]. rewrite Hf. discriminate.
  - intros H. apply Hundef. apply baseGet_total_value_undefined. exact H.
  - intros [Hf|Hf].
    + rewrite (Hundef Hf). reflexivity.
    + rewrite Hdef; [exact Hf|]. intros E. rewrite E in Hf. discriminate.
Qed.

(** ** The loader *)

Ltac loader_unfold :=
  unfold run_actLoad, actLoad, try_catch, actLoad_try, actLoad_catch,
    mbind, M_bind, mret, M_ret, client_query, lift, dispatch;
  cbn [store trace fst snd].

Section LoaderRuns.

Variable client : QueryOptions -> thrown + response.
Variable TE : string -> string.
Variable cq : CurrentQuery.
Variable s : IStateArtifacts.

#[local] Abbreviation final := (run_actLoad client TE cq s).

(** The fast query rejects. *)
Lemma run_fast_rejects (e : thrown) :
  client (fast_query cq) = inl e ->
  final =
    {| store := failed_state (errorText e);
       trace := [EvDispatch (actIsLoading true);
                 EvQuery (fast_query cq);
                 EvDispatch (actArtList (failure_payload (errorText e)))] |}.
Proof.
  intros Hf. loader_unfold. rewrite Hf. reflexivity.
Qed.

(** The fast response cannot be shaped. *)
Lemma run_fast_unshaped (r : response) (e : thrown) :
  client (fast_query cq) = inr r ->
  responseToState TE r = inl e ->
  final =
    {| store := failed_state (errorText e);
       trace := [EvDispatch (actIsLoading true);
                 EvQuery (fast_query cq);
                 EvDispatch (actArtList (failure_payload (errorText e)))] |}.
Proof.
  intros Hf Hr. loader_unfold. rewrite Hf, Hr. reflexivity.
Qed.

(** The fast query gives no hit. *)
Lemma run_fast_empty (r : response) (p : artListPayload) :
  client (fast_query cq) = inr r ->
  responseToState TE r = inr p ->
  p_hits p = [] ->
  final =
    {| store := published_state p;
       trace := [EvDispatch (actIsLoading true);
                 EvQuery (fast_query cq);
                 EvDispatch (actArtList p)] |}.
Proof.
  intros Hf Hr Hp. loader_unfold. rewrite Hf, Hr, Hp.
  reflexivity.
Qed.

Lemma run_slow_rejects (r : response) (p : artListPayload) (e : thrown) :
  client (fast_query cq) = inr r ->
  responseToState TE r = inr p ->
  p_hits p <> [] ->
  client (slow_query cq) = inl e ->
  final =
    {| store := failed_state (errorText e);
       trace := second_stage_prefix cq p ++
                [EvDispatch (actArtList (failure_payload (errorText e)))] |}.
Proof.
  intros Hf Hr Hp Hs. loader_unfold. rewrite Hf, Hr.
  destruct (p_hits p) eqn:E; [congruence|]. cbn [Lodash.isEmpty].
  rewrite Hs. reflexivity.
Qed.

Lemma run_slow_unshaped (r r' : response) (p : artListPayload) (e : thrown) :
  client (fast_query cq) = inr r ->
  responseToState TE r = inr p ->
  p_hits p <> [] ->
  client (slow_query cq) = inr r' ->
  responseToState TE r' = inl e ->
  final =
    {| store := failed_state (errorText e);
       trace := second_stage_prefix cq p ++
                [EvDispatch (actArtList (failure_payload (errorText e)))] |}.
Proof.
  intros Hf Hr Hp Hs Hr'. loader_unfold. rewrite Hf, Hr.
  destruct (p_hits p) eqn:E; [congruence|]. cbn [Lodash.isEmpty].
  rewrite Hs, Hr'. reflexivity.
Qed.

Lemma run_slow_resolves (r r' : response) (p p' : artListPayload) :
  client (fast_query cq) = inr r ->
  responseToState TE r = inr p ->
  p_hits p <> [] ->
  client (slow_query cq) = inr r' ->
  responseToState TE r' = inr p' ->
  final =
    {| store := published_state p';
       trace := second_stage_prefix cq p ++ [EvDispatch (actArtList p')] |}.
Proof.
  intros Hf Hr Hp Hs Hr'. loader_unfold. rewrite Hf, Hr.
  destruct (p_hits p) eqn:E; [congruence|]. cbn [Lodash.isEmpty].
  rewrite Hs, Hr'. reflexivity.
Qed.

End LoaderRuns.

(** The thunk always returns, and it ends in one of six ways: the four
    failures caught by the [catch] clause, the early return on an empty fast
    result and the publish of the slow result. *)
Lemma actLoad_cases client TE cq s :
  let final := run_actLoad client TE cq s in
  (exists e,
     (client (fast_query cq) = inl e \/
      exists r, client (fast_query cq) = inr r /\
                responseToState TE r = inl e) /\
     final =
       {| store := failed_state (errorText e);
          trace := [EvDispatch (actIsLoading true);
                    EvQuery (fast_query cq);
                    EvDispatch (actArtList (failure_payload (errorText e)))] |})
  \/
  (exists r p,
     client (fast_query cq) = inr r /\ responseToState TE r = inr p /\
     p_hits p = [] /\
     final =
       {| store := published_state p;
          trace := [EvDispatch (actIsLoading true);
                    EvQuery (fast_query cq);
                    EvDispatch (actArtList p)] |})
  \/
  (exists r p last,
     client (fast_query cq) = inr r /\ responseToState TE r = inr p /\
     p_hits p <> [] /\
     final =
       {| store := published_state last;
          trace := second_stage_prefix cq p ++ [EvDispatch (actArtList last)] |}).
Proof.
  intros final. subst final.
  destruct (client (fast_query cq)) as [e|r] eqn:Hf.
  { left. exists e. split; [by left|]. by apply run_fast_rejects. }
  destruct (responseToState TE r) as [e|p] eqn:Hr.
  { left. exists e. split; [right; by exists r|].
    by apply (run_fast_unshaped _ _ _ _ r). }
  destruct (p_hits p) as [|h hs] eqn:Hp.
  { right; left. exists r, p. repeat split; try done.
    by apply (run_fast_empty _ _ _ _ r). }
  assert (Hne : p_hits p <> []) by (rewrite Hp; discriminate).
  right; right. exists r, p.
  destruct (client (slow_query cq)) as [e|r'] eqn:Hs.
  { exists (failure_payload (errorText e)). repeat split; try done.
    by apply (run_slow_rejects _ _ _ _ r). }
  destruct (responseToState TE r') as [e|p'] eqn:Hr'.
  { exists (failure_payload (errorText e)). repeat split; try done.
    by apply (run_slow_unshaped _ _ _ _ r r'). }
  exists p'. repeat split; try done.
  by apply (run_slow_resolves _ _ _ _ r r').
Qed.

(** The final store is the initial one after the dispatches of the trace. *)
Lemma store_replays_trace client TE cq s :
  store (run_actLoad client TE cq s)
    = replay s (trace (run_actLoad client TE cq s)).
Proof.
  destruct (actLoad_cases client TE cq s)
    as [(e & _ & ->)|[(r & p & _ & _ & _ & ->)|(r & p & l & _ & _ & _ & ->)]];
    reflexivity.
Qed.

(** C2: when the fast query rejects, or the slow query rejects after the
    fast one gave hits, the loader leaves the store with no results, total
    0, the extracted message as error and both loading flags false; in the
    second case the results of the fast stage had been published (they are
    in the store after the third event of the trace) and are gone. *)
Theorem load_failure_state client TE cq s e :
  let final := run_actLoad client TE cq s in
  let failed st := empty_error_state st (errorText e) in
  (client (fast_query cq) = inl e -> failed (store final)) /\
  (forall r p,
     client (fast_query cq) = inr r ->
     responseToState TE r = inr p ->
     p_hits p <> [] ->
     client (slow_query cq) = inl e ->
     failed (store final) /\
     artList (replay s (take 3 (trace final))) = p_hits p /\
     forall client' cq' s',
       client' (fast_query cq') = inl e ->
       store final = store (run_actLoad client' TE cq' s')).
Proof.
  intros final failed. subst final failed. cbv beta. split.
  - intros Hf. rewrite (run_fast_rejects _ TE _ _ e Hf). by repeat split.
  - intros r p Hf Hr Hp Hs.
    rewrite (run_slow_rejects _ _ _ _ r p e Hf Hr Hp Hs).
    cbn [store trace]. split; [by repeat split|].
    split; [reflexivity|].
    intros client' cq' s' Hf'.
    by rewrite (run_fast_rejects _ TE _ _ e Hf').
Qed.

Lemma second_stage_prefix_events cq p rest ev :
  ev ∈ second_stage_prefix cq p ++ [EvDispatch rest] ->
  is_slow_query ev = true ->
  ev = EvQuery (slow_query cq).
Proof.
  unfold second_stage_prefix. cbn [app].
  rewrite !elem_of_cons, elem_of_nil.
  intros [->|[->|[->|[->|[->|[->|[]]]]]]]; simpl; congruence.
Qed.

(** C3: a fast response without hits is published as it is (no results, no
    error, the total read from its [hits_info], which is 0 when
    [hits_info.total.value] is 0) and the loader stops: the trace holds the
    fast query only.  Conversely a slow query in the trace comes after the
    fast query resolved, its non-empty hit list was published and
    [isLoadingExtended] was set. *)
Theorem slow_query_only_after_hits client TE cq s :
  let final := run_actLoad client TE cq s in
  (forall r d a,
     client (fast_query cq) = inr r ->
     data r = Some d -> artifacts d = Some a ->
     default [] (a_hits a) = [] ->
     store final =
       {| error := None;
          artList := [];
          hits_info := a_hits_info a;
          isLoading := false;
          totalHits := Lodash.get (a_hits_info a) ["total"; "value"] (JNum 0);
          isLoadingExtended := false |} /\
     (a_hits_info a = zero_hits_info -> totalHits (store final) = JNum 0) /\
     trace final =
       [EvDispatch (actIsLoading true);
        EvQuery (fast_query cq);
        EvDispatch (actArtList (mkPayload [] None (a_hits_info a)))] /\
     forall ev, ev ∈ trace final -> is_slow_query ev = false) /\
  (forall ev,
     ev ∈ trace final -> is_slow_query ev = true ->
     ev = EvQuery (slow_query cq) /\
     exists r p rest,
       client (fast_query cq) = inr r /\
       responseToState TE r = inr p /\
       p_hits p <> [] /\
       trace final =
         [EvDispatch (actIsLoading true);
          EvQuery (fast_query cq);
          EvDispatch (actArtList p);
          EvDispatch (actIsLoadingExtended true);
          EvQuery (slow_query cq)] ++ rest).
Proof.
  intros final. subst final. split.
  - intros r d a Hf Hd Ha Hh.
    assert (Hr : responseToState TE r = inr (mkPayload [] None (a_hits_info a))).
    { unfold responseToState. rewrite Hd, Ha, Hh. reflexivity. }
    rewrite (run_fast_empty _ _ _ _ r _ Hf Hr eq_refl). cbn [store trace].
    split; [reflexivity|]. split.
    + unfold published_state. cbn. intros ->. reflexivity.
    + split; [reflexivity|]. intros ev.
      rewrite !elem_of_cons, elem_of_nil. intros [->|[->|[->|[]]]]; reflexivity.
  - intros ev.
    destruct (actLoad_cases client TE cq s)
      as [(e & _ & ->)|[(r & p & _ & _ & _ & ->)
                       |(r & p & l & Hf & Hr & Hp & ->)]];
      cbn [trace].
    + rewrite !elem_of_cons, elem_of_nil.
      intros [->|[->|[->|[]]]]; simpl; congruence.
    + rewrite !elem_of_cons, elem_of_nil.
      intros [->|[->|[->|[]]]]; simpl; congruence.
    + intros Hin Hslow. split.
      * exact (second_stage_prefix_events cq p _ ev Hin Hslow).
      * exists r, p, [EvDispatch (actArtList l)]. by repeat split.
Qed.

(** C8: whatever is thrown inside the [try] block, the error published is
    the message of the thrown value when it is an error object and the
    string [_.toString] makes of it otherwise; a rejection of the fast query
    and a rejection of the slow query are two such throws. *)
Theorem load_error_text client TE cq s e :
  let final := run_actLoad client TE cq s in
  let text :=
    match e with
    | ThrowError message => message
    | ThrowValue value => Lodash.toString value
    end in
  (fst (actLoad_try client TE cq {| store := s; trace := [] |}) = inl e ->
   error (store final) = Some text) /\
  (client (fast_query cq) = inl e -> error (store final) = Some text) /\
  (forall r p,
     client (fast_query cq) = inr r ->
     responseToState TE r = inr p ->
     p_hits p <> [] ->
     client (slow_query cq) = inl e ->
     error (store final) = Some text).
Proof.
  intros final text. subst final.
  assert (Ht : text = errorText e) by (by destruct e).
  rewrite Ht. clear Ht text. split; [|split].
  - unfold run_actLoad, actLoad, try_catch.
    destruct (actLoad_try client TE cq _) as [[e'|[]] w']; cbn [fst snd].
    + intros [= ->]. reflexivity.
    + discriminate.
  - intros Hf. by rewrite (run_fast_rejects _ TE _ _ e Hf).
  - intros r p Hf Hr Hp Hs.
    by rewrite (run_slow_rejects _ _ _ _ r p e Hf Hr Hp Hs).
Qed.

(** ** The tagging history *)

#[local] Instance time_le_trans : Transitive time_le.
Proof. unfold time_le. intros a b c. lia. Qed.

Lemma insert_by_time_perm x l : insert_by_time x l ≡ₚ x :: l.
Proof.
  induction l as [|y l IH]; cbn [insert_by_time]; [done|].
  destruct (l_time x <=? l_time y); [done|].
  rewrite IH. apply Permutation_swap.
Qed.

Lemma orderBy_time_perm lines : orderBy_time lines ≡ₚ lines.
Proof.
  induction lines as [|x l IH]; [done|].
  cbn [orderBy_time foldr]. rewrite insert_by_time_perm.
  by apply Permutation_skip.
Qed.

Lemma insert_by_time_hd x y l :
  time_le y x -> HdRel time_le y l -> HdRel time_le y (insert_by_time x l).
Proof.
  intros Hyx Hy. destruct l as [|z l]; cbn [insert_by_time].
  - by constructor.
  - destruct (l_time x <=? l_time z); constructor; [done|].
    by inversion Hy.
Qed.

Lemma insert_by_time_sorted x l :
  Sorted time_le l -> Sorted time_le (insert_by_time x l).
Proof.
  induction 1 as [|y l Hl IH Hy]; cbn [insert_by_time].
  - repeat constructor.
  - destruct (Z.leb_spec (l_time x) (l_time y)) as [Hle|Hgt].
    + constructor; [by constructor|]. by constructor.
    + constructor; [exact IH|]. apply insert_by_time_hd; [|done].
      unfold time_le. lia.
Qed.

Lemma orderBy_time_sorted lines : Sorted time_le (orderBy_time lines).
Proof.
  induction lines as [|x l IH]; [constructor|].
  cbn [orderBy_time foldr]. by apply insert_by_time_sorted.
Qed.

Lemma Sorted_adjacent {A} (R : relation A) (l : list A) i a b :
  Sorted R l -> l !! i = Some a -> l !! S i = Some b -> R a b.
Proof.
  intros Hs. revert i. induction Hs as [|x l Hl IH Hx]; intros i Ha Hb.
  - discriminate.
  - destruct i as [|i].
    + cbn in Ha, Hb. injection Ha as <-.
      destruct Hx as [|y l Hxy]; [discriminate|]. cbn in Hb. congruence.
    + exact (IH i Ha Hb).
Qed.

(** Lines with pairwise distinct times are told apart by their time. *)
Lemma distinct_times_inj (lines : list TagActionHistoryType) x y :
  NoDup (l_time <$> lines) -> x ∈ lines -> y ∈ lines ->
  l_time x = l_time y -> x = y.
Proof.
  induction lines as [|z l IH]; [by rewrite elem_of_nil|].
  rewrite fmap_cons, NoDup_cons, !elem_of_cons.
  intros [Hz Hnd] [->|Hx] [->|Hy] Ht; [done| | |by apply IH].
  - exfalso. apply Hz. rewrite Ht. by apply list_elem_of_fmap_2.
  - exfalso. apply Hz. rewrite <- Ht. by apply list_elem_of_fmap_2.
Qed.

Lemma history_lines_perm h1 h2 :
  h1 ≡ₚ h2 -> history_lines h1 ≡ₚ history_lines h2.
Proof. intros H. unfold history_lines. by rewrite H. Qed.

(** C4: the timeline is a rearrangement of the entries pushed for all the
    records, every entry is followed by one that is not earlier, and when
    the times of the entries are pairwise distinct the timeline does not
    depend on the order in which the records are supplied. *)
Theorem history_log_order (history : list KojiBuildTagging) :
  let log := orderBy_time (history_lines history) in
  HistoryList_log (Some history) = Some log /\
  log ≡ₚ flat_map push_lines history /\
  (forall i a b,
     log !! i = Some a -> log !! S i = Some b -> l_time a <= l_time b) /\
  (forall history',
     history' ≡ₚ history ->
     NoDup (l_time <$> history_lines history) ->
     HistoryList_log (Some history') = Some log).
Proof.
  intros log. subst log. split; [reflexivity|]. split; [|split].
  - apply orderBy_time_perm.
  - intros i a b. apply (Sorted_adjacent time_le). apply orderBy_time_sorted.
  - intros history' Hperm Hnd. cbn [HistoryList_log]. f_equal.
    apply (Sorted_unique_strong time_le); try apply orderBy_time_sorted.
    + intros x y Hx Hy Hxy Hyx.
      rewrite orderBy_time_perm in Hx, Hy.
      rewrite (history_lines_perm _ _ Hperm) in Hx.
      apply (distinct_times_inj _ x y Hnd Hx Hy).
      unfold time_le in *. lia.
    + rewrite !orderBy_time_perm. by apply history_lines_perm.
Qed.

Lemma revoke_gate_true e :
  revoke_gate e = true <-> exists ts id name, revoke_truthy e ts id name.
Proof.
  unfold revoke_gate, revoke_truthy, Lodash.every. cbn [forallb].
  rewrite !andb_true_iff. split.
  - intros (Hts & Hname & Hid & _).
    destruct (revoke_ts e) as [ts|]; [|discriminate].
    destruct (revoker_name e) as [name|]; [|discriminate].
    destruct (revoker_id e) as [id|]; [|discriminate].
    cbn in Hts, Hname, Hid.
    apply negb_true_iff in Hts, Hname, Hid.
    apply Z.eqb_neq in Hts, Hid. apply String.eqb_neq in Hname.
    by exists ts, id, name.
  - intros (ts & id & name & -> & -> & -> & Hts & Hid & Hname). cbn.
    apply Z.eqb_neq in Hts, Hid. apply String.eqb_neq in Hname.
    by rewrite Hts, Hid, Hname.
Qed.

Lemma push_lines_truthy e ts id name :
  revoke_truthy e ts id name ->
  push_lines e = [tagged_line e; untagged_line e ts id name].
Proof.
  intros H. unfold push_lines.
  assert (Hg : revoke_gate e = true) by (apply revoke_gate_true; eauto).
  rewrite Hg. destruct H as (-> & -> & -> & _). reflexivity.
Qed.

Lemma push_lines_not_truthy e :
  revoke_gate e = false -> push_lines e = [tagged_line e].
Proof. intros H. unfold push_lines. by rewrite H. Qed.

(** Every line pushed for a record is its [Tagged] entry or an [Untagged]
    entry, which is not active. *)
Lemma push_lines_cases e line :
  line ∈ push_lines e ->
  line = tagged_line e \/
  (l_action line = "untagged from" /\ l_active line = false).
Proof.
  destruct (revoke_gate e) eqn:Hg.
  - apply revoke_gate_true in Hg as (ts & id & name & H).
    rewrite (push_lines_truthy _ _ _ _ H).
    rewrite !elem_of_cons, elem_of_nil. intros [->|[->|[]]]; auto.
  - rewrite (push_lines_not_truthy _ Hg).
    rewrite elem_of_cons, elem_of_nil. intros [->|[]]. by left.
Qed.

(** C1, counterexample: the three revoke fields are present, the revoker
    has id 0, and the record yields its [Tagged] entry only. *)
Lemma revoker_id_0_not_untagged :
  revoke_present tagging_revoked_by_id_0 /\
  push_lines tagging_revoked_by_id_0 = [tagged_line tagging_revoked_by_id_0] /\
  ~ (emits_untagged tagging_revoked_by_id_0 <->
     revoke_present tagging_revoked_by_id_0).
Proof.
  assert (Hp : revoke_present tagging_revoked_by_id_0)
    by (repeat split; eexists; reflexivity).
  split; [exact Hp|]. split; [reflexivity|].
  intros [_ H]. destruct (H Hp) as (line & Hin & Hact).
  change (push_lines tagging_revoked_by_id_0)
    with [tagged_line tagging_revoked_by_id_0] in Hin.
  apply list_elem_of_singleton in Hin. subst line. discriminate Hact.
Qed.

(** C1, amended: a record yields its [Tagged] entry and, after it, an
    [Untagged] entry if and only if the revoke timestamp, the revoker id and
    the revoker name are all truthy (present, the timestamp and the id not
    0, the name not empty); a record missing any one of the three yields the
    [Tagged] entry only. *)
Theorem untagged_iff_revoke_truthy (e : KojiBuildTagging) :
  (emits_untagged e <-> exists ts id name, revoke_truthy e ts id name) /\
  (forall ts id name,
     revoke_truthy e ts id name ->
     push_lines e = [tagged_line e; untagged_line e ts id name]) /\
  ((~ exists ts id name, revoke_truthy e ts id name) ->
   push_lines e = [tagged_line e]) /\
  (revoke_ts e = None \/ revoker_id e = None \/ revoker_name e = None ->
   push_lines e = [tagged_line e]).
Proof.
  assert (Hnot : (~ exists ts id name, revoke_truthy e ts id name) ->
                 push_lines e = [tagged_line e]).
  { intros Hn. apply push_lines_not_truthy.
    destruct (revoke_gate e) eqn:Hg; [|done].
    apply revoke_gate_true in Hg. contradiction. }
  split; [|split; [|split]].
  - split.
    + intros (line & Hin & Hact).
      destruct (revoke_gate e) eqn:Hg; [by apply revoke_gate_true|].
      rewrite (push_lines_not_truthy _ Hg) in Hin.
      apply list_elem_of_singleton in Hin. subst line. discriminate Hact.
    + intros (ts & id & name & H). exists (untagged_line e ts id name).
      rewrite (push_lines_truthy _ _ _ _ H). split; [|done].
      apply list_elem_of_further, list_elem_of_here.
  - apply push_lines_truthy.
  - exact Hnot.
  - intros Hmiss. apply Hnot. intros (ts & id & name & H1 & H2 & H3 & _).
    destruct Hmiss as [H|[H|H]]; congruence.
Qed.

(** C9: the text rendered for an entry is the line followed by the flag;
    for every entry of the timeline the flag is ["[still active]"] exactly
    when the entry is active, which only [Tagged] entries are, and it is
    empty for every [Untagged] entry. *)
Theorem still_active_flag format_local format_shift
    (history : list KojiBuildTagging) (log : list TagActionHistoryType)
    (entry : TagActionHistoryType) :
  HistoryList_log (Some history) = Some log ->
  entry ∈ log ->
  HistoryListEntry format_local format_shift entry =
    format_local (l_time entry) +:+ " " +:+ format_shift (l_time entry)
      +:+ " " +:+ l_action entry +:+ " " +:+ l_tag_name entry +:+ " by "
      +:+ l_person_name entry +:+ " " +:+ flag entry /\
  (flag entry = "[still active]" \/ flag entry = "") /\
  (flag entry = "[still active]" ->
   l_active entry = true /\ l_action entry = "tagged into") /\
  (l_action entry = "untagged from" -> flag entry = "").
Proof.
  intros [= <-] Hin. rewrite orderBy_time_perm in Hin.
  unfold history_lines in Hin. apply list_elem_of_In, in_flat_map in Hin.
  destruct Hin as (e & _ & Hin). apply list_elem_of_In in Hin.
  split; [reflexivity|]. unfold flag.
  apply push_lines_cases in Hin as [->|[Hact Hfalse]].
  - cbn. destruct (active e); repeat split; auto; discriminate.
  - rewrite Hfalse, Hact. repeat split; auto; discriminate.
Qed.

(** ** Concrete runs *)

Example run_resolves :
  let final :=
    run_actLoad client_resolves sample_TypeError_message sample_query
      INITIAL_STATE in
  length (artList (store final)) = 5%nat /\
  totalHits (store final) = JNum 10 /\
  error (store final) = None /\
  isLoading (store final) = false /\
  isLoadingExtended (store final) = false /\
  length (trace final) = 6%nat /\
  v_paginationFrom (variables (fast_query sample_query)) = 20.
Proof. vm_compute. repeat split. Qed.

Example toString_samples :
  Lodash.toString (JArr [JNum 1; JNull; JStr "x"]) = "1,null,x" /\
  Lodash.toString JNull = "" /\
  Lodash.toString (JNum (-7)) = "-7" /\
  Lodash.toString empty_object = "[object Object]".
Proof. vm_compute. repeat split. Qed.

Lemma artList_publish_witness :
  error (artifactsReducer state_after_fast_publish
           (actArtList (mkPayload [] None (total_of 0)))) = None.
Proof.
  apply (artList_publish state_after_fast_publish
           (mkPayload [] None (total_of 0)))
    with (TE := sample_TypeError_message) (r := empty_response).
  reflexivity.
Defined.

Lemma totalHits_after_artList_witness :
  totalHits (artifactsReducer INITIAL_STATE
               (actArtList (mkPayload [] None (total_of 10)))) = JNum 10 /\
  totalHits (artifactsReducer state_after_fast_publish
               (actArtList (mkPayload [] None empty_object))) = JNum 0.
Proof.
  split.
  - pose proof (totalHits_after_artList INITIAL_STATE
                  (mkPayload [] None (total_of 10))) as H.
    cbv zeta in H. destruct H as (_ & _ & _ & H & _).
    apply (H {[ "total" := JObj {[ "value" := JNum 10 ]} ]}
             {[ "value" := JNum 10 ]} 10); reflexivity.
  - pose proof (totalHits_after_artList state_after_fast_publish
                  (mkPayload [] None empty_object)) as H.
    cbv zeta in H. destruct H as (_ & _ & H & _).
    apply H. reflexivity.
Defined.

Lemma load_failure_state_witness :
  empty_error_state
    (store (run_actLoad client_fast_rejects sample_TypeError_message
              sample_query state_after_fast_publish))
    "Network error" /\
  empty_error_state
    (store (run_actLoad client_slow_rejects sample_TypeError_message
              sample_query INITIAL_STATE))
    "503".
Proof.
  split.
  - pose proof (load_failure_state client_fast_rejects
                  sample_TypeError_message sample_query
                  state_after_fast_publish (ThrowError "Network error")) as H.
    cbv zeta beta in H. destruct H as [H _]. exact (H eq_refl).
  - pose proof (load_failure_state client_slow_rejects
                  sample_TypeError_message sample_query
                  INITIAL_STATE (ThrowValue (JNum 503))) as H.
    cbv zeta beta in H. destruct H as [_ H].
    refine (proj1 (H fast_response _ eq_refl eq_refl _ eq_refl)).
    discriminate.
Defined.

Lemma slow_query_only_after_hits_witness :
  trace (run_actLoad client_no_hits sample_TypeError_message sample_query
           INITIAL_STATE)
    = [EvDispatch (actIsLoading true);
       EvQuery (fast_query sample_query);
       EvDispatch (actArtList (mkPayload [] None (total_of 0)))] /\
  totalHits (store (run_actLoad client_no_hits sample_TypeError_message
                      sample_query INITIAL_STATE)) = JNum 0 /\
  exists r p rest,
    client_slow_rejects (fast_query sample_query) = inr r /\
    responseToState sample_TypeError_message r = inr p /\
    p_hits p <> [] /\
    trace (run_actLoad client_slow_rejects sample_TypeError_message
             sample_query INITIAL_STATE)
      = [EvDispatch (actIsLoading true);
         EvQuery (fast_query sample_query);
         EvDispatch (actArtList p);
         EvDispatch (actIsLoadingExtended true);
         EvQuery (slow_query sample_query)] ++ rest.
Proof.
  split; [|split].
  - pose proof (slow_query_only_after_hits client_no_hits
                  sample_TypeError_message sample_query INITIAL_STATE) as H.
    cbv zeta in H. destruct H as [H _].
    exact (proj1 (proj2 (proj2
             (H empty_response _ _ eq_refl eq_refl eq_refl eq_refl)))).
  - pose proof (slow_query_only_after_hits client_no_hits
                  sample_TypeError_message sample_query INITIAL_STATE) as H.
    cbv zeta in H. destruct H as [H _].
    exact (proj1 (proj2
             (H empty_response _ _ eq_refl eq_refl eq_refl eq_refl)) eq_refl).
  - pose proof (slow_query_only_after_hits client_slow_rejects
                  sample_TypeError_message sample_query INITIAL_STATE) as H.
    cbv zeta in H. destruct H as [_ H].
    refine (proj2 (H (EvQuery (slow_query sample_query)) _ eq_refl)).
    vm_compute. do 4 apply list_elem_of_further. apply list_elem_of_here.
Defined.

Lemma load_error_text_witness :
  error (store (run_actLoad client_fast_rejects sample_TypeError_message
                  sample_query INITIAL_STATE)) = Some "Network error" /\
  error (store (run_actLoad client_slow_rejects sample_TypeError_message
                  sample_query INITIAL_STATE)) = Some "503" /\
  error (store (run_actLoad (fun _ => inr (mkResponse None))
                  sample_TypeError_message sample_query INITIAL_STATE))
    = Some "Cannot read properties of undefined (reading 'artifacts')".
Proof.
  split; [|split].
  - pose proof (load_error_text client_fast_rejects sample_TypeError_message
                  sample_query INITIAL_STATE (ThrowError "Network error"))
      as H.
    cbv zeta in H. exact (proj1 (proj2 H) eq_refl).
  - pose proof (load_error_text client_slow_rejects sample_TypeError_message
                  sample_query INITIAL_STATE (ThrowValue (JNum 503))) as H.
    cbv zeta in H.
    refine (proj2 (proj2 H) fast_response _ eq_refl eq_refl _ eq_refl).
    discriminate.
  - pose proof (load_error_text (fun _ => inr (mkResponse None))
                  sample_TypeError_message sample_query INITIAL_STATE
                  (ThrowError (sample_TypeError_message "artifacts"))) as H.
    cbv zeta in H. exact (proj1 H eq_refl).
Defined.

Lemma history_log_order_witness :
  HistoryList_log (Some [tagging_at 300 "t3"; tagging_at 100 "t1"])
    = Some [tagged_line (tagging_at 100 "t1");
            tagged_line (tagging_at 300 "t3")] /\
  HistoryList_log (Some [tagging_at 100 "t1"; tagging_at 300 "t3"])
    = Some [tagged_line (tagging_at 100 "t1");
            tagged_line (tagging_at 300 "t3")].
Proof.
  pose proof (history_log_order [tagging_at 300 "t3"; tagging_at 100 "t1"])
    as H.
  cbv zeta in H. destruct H as (H1 & _ & _ & H2). split; [exact H1|].
  apply (H2 [tagging_at 100 "t1"; tagging_at 300 "t3"]).
  - apply Permutation_swap.
  - apply (bool_decide_unpack _). reflexivity.
Defined.

Lemma untagged_iff_revoke_truthy_witness :
  push_lines tagging_full_revoke
    = [tagged_line tagging_full_revoke;
       untagged_line tagging_full_revoke 200 2 "b"] /\
  push_lines (tagging_at 100 "t1") = [tagged_line (tagging_at 100 "t1")].
Proof.
  split.
  - apply (untagged_iff_revoke_truthy tagging_full_revoke).
    repeat split; discriminate.
  - apply (untagged_iff_revoke_truthy (tagging_at 100 "t1")).
    left. reflexivity.
Defined.

Lemma still_active_flag_witness :
  flag (untagged_line tagging_full_revoke 200 2 "b") = "".
Proof.
  refine (proj2 (proj2 (proj2
            (still_active_flag pretty pretty [tagging_full_revoke] _
               (untagged_line tagging_full_revoke 200 2 "b") eq_refl _)))
            eq_refl).
  vm_compute. apply list_elem_of_further, list_elem_of_here.
Defined.

(** * Further properties of the code *)

(** ** The loader as a whole *)

(** Splits a goal about a run of the thunk into the six ways it can end and
    rewrites the run to its final world. *)
Ltac load_cases client TE cq :=
  let e := fresh "e" in
  let r := fresh "r" in
  let p := fresh "p" in
  let r' := fresh "r'" in
  let p' := fresh "p'" in
  let Hf := fresh "Hf" in
  let Hr := fresh "Hr" in
  let Hp := fresh "Hp" in
  let Hs := fresh "Hs" in
  let Hr' := fresh "Hr'" in
  destruct (client (fast_query cq)) as [e|r] eqn:Hf;
  [ rewrite !(run_fast_rejects client TE cq _ e Hf)
  | destruct (responseToState TE r) as [e|p] eqn:Hr;
    [ rewrite !(run_fast_unshaped client TE cq _ r e Hf Hr)
    | destruct (decide (p_hits p = [])) as [Hp|Hp];
      [ rewrite !(run_fast_empty client TE cq _ r p Hf Hr Hp)
      | destruct (client (slow_query cq)) as [e|r'] eqn:Hs;
        [ rewrite !(run_slow_rejects client TE cq _ r p e Hf Hr Hp Hs)
        | destruct (responseToState TE r') as [e|p'] eqn:Hr';
          [ rewrite !(run_slow_unshaped client TE cq _ r r' p e Hf Hr Hp Hs Hr')
          | rewrite !(run_slow_resolves client TE cq _ r r' p p' Hf Hr Hp Hs Hr')
          ] ] ] ] ].

#[local] Instance Artifact_list_nil_dec (l : list Artifact) : Decision (l = []).
Proof. destruct l; [left; reflexivity|right; discriminate]. Defined.


(** X2: a load overwrites the whole slice: the final state and the events
    do not depend on the state the load started from. *)
Theorem actLoad_forgets_initial_state client TE cq s s' :
  run_actLoad client TE cq s = run_actLoad client TE cq s'.
Proof. load_cases client TE cq; reflexivity. Qed.

(** X3: the final error is set exactly when something was thrown inside the
    [try] block, and a final state with an error shows no result and a total
    of 0. *)
Theorem error_iff_try_throws client TE cq s :
  let final := run_actLoad client TE cq s in
  (error (store final) = None <->
   fst (actLoad_try client TE cq {| store := s; trace := [] |}) = inr tt) /\
  (forall message,
     error (store final) = Some message ->
     store final = failed_state message /\
     exists e,
       fst (actLoad_try client TE cq {| store := s; trace := [] |}) = inl e /\
       message = errorText e).
Proof.
  cbv zeta. unfold run_actLoad, actLoad, try_catch.
  destruct (actLoad_try client TE cq _) as [[e|[]] w'] eqn:E; cbn [fst snd].
  - split; [split; discriminate|].
    intros message [= <-]. split; [reflexivity|]. by exists e.
  - assert (Hnone : error (store w') = None).
    { revert E. loader_unfold.
      destruct (client (fast_query cq)) as [e|r]; [discriminate|].
      destruct (responseToState TE r) as [e|p] eqn:Hr; [discriminate|].
      pose proof (responseToState_no_error TE r p Hr) as Hp.
      destruct (Lodash.isEmpty (p_hits p)).
      - intros [= <-]. exact Hp.
      - destruct (client (slow_query cq)) as [e|r']; [discriminate|].
        destruct (responseToState TE r') as [e|p'] eqn:Hr'; [discriminate|].
        intros [= <-]. exact (responseToState_no_error TE r' p' Hr'). }
    split; [by split|]. intros message H. congruence.
Qed.

(** X4: a load sends the fast query first and at most one more query, the
    slow one, with the same variables; the offset of both is
    [(page - 1) * paginationSize], which is not negative from page 1 on. *)
Theorem actLoad_queries client TE cq s :
  let sent := queries_of (trace (run_actLoad client TE cq s)) in
  (sent = [fast_query cq] \/ sent = [fast_query cq; slow_query cq]) /\
  (forall q, q ∈ sent ->
     variables q = variables (fast_query cq) /\
     v_paginationSize (variables q) = paginationSize cq /\
     v_paginationFrom (variables q) = (page cq - 1) * paginationSize cq /\
     (1 <= page cq -> 0 <= paginationSize cq ->
      0 <= v_paginationFrom (variables q))).
Proof.
  cbv zeta.
  assert (Hsent : queries_of (trace (run_actLoad client TE cq s))
                    = [fast_query cq] \/
                  queries_of (trace (run_actLoad client TE cq s))
                    = [fast_query cq; slow_query cq]).
  { load_cases client TE cq; cbn; auto. }
  split; [exact Hsent|]. intros q Hq.
  assert (Hv : variables q = variables (fast_query cq)).
  { destruct Hsent as [Hs|Hs]; rewrite Hs in Hq; revert Hq;
      rewrite ?elem_of_cons, elem_of_nil; intros H;
      repeat (destruct H as [->|H]); done. }
  rewrite Hv. cbn. repeat split. intros. nia.
Qed.

(** X5: when the fast query gives hits, the store after the fourth event
    (the second query is about to be sent) shows these hits and their total
    with [isLoading] off, [isLoadingExtended] on and no error. *)
Theorem extended_loading_state client TE cq s r p :
  client (fast_query cq) = inr r ->
  responseToState TE r = inr p ->
  p_hits p <> [] ->
  let shown := replay s (take 4 (trace (run_actLoad client TE cq s))) in
  artList shown = p_hits p /\
  hits_info shown = p_hits_info p /\
  totalHits shown = Lodash.get (p_hits_info p) ["total"; "value"] (JNum 0) /\
  isLoading shown = false /\
  isLoadingExtended shown = true /\
  error shown = None.
Proof.
  intros Hf Hr Hp. cbv zeta.
  pose proof (responseToState_no_error TE r p Hr) as Herr.
  assert (Htake : take 4 (trace (run_actLoad client TE cq s))
                    = [EvDispatch (actIsLoading true); EvQuery (fast_query cq);
                       EvDispatch (actArtList p);
                       EvDispatch (actIsLoadingExtended true)]).
  { destruct (client (slow_query cq)) as [e|r'] eqn:Hs.
    - by rewrite (run_slow_rejects client TE cq _ r p e Hf Hr Hp Hs).
    - destruct (responseToState TE r') as [e|p'] eqn:Hr'.
      + by rewrite (run_slow_unshaped client TE cq _ r r' p e Hf Hr Hp Hs Hr').
      + by rewrite (run_slow_resolves client TE cq _ r r' p p' Hf Hr Hp Hs Hr'). }
  rewrite Htake. cbn. by repeat split.
Qed.

(** X6: when both queries resolve the slow result replaces the fast one: the
    final results, [hits_info] and total are those of the slow response
    alone, were it without hits, and six events happened. *)
Theorem slow_result_replaces_fast client TE cq s r p r' p' :
  client (fast_query cq) = inr r ->
  responseToState TE r = inr p ->
  p_hits p <> [] ->
  client (slow_query cq) = inr r' ->
  responseToState TE r' = inr p' ->
  let final := run_actLoad client TE cq s in
  artList (store final) = p_hits p' /\
  hits_info (store final) = p_hits_info p' /\
  totalHits (store final)
    = Lodash.get (p_hits_info p') ["total"; "value"] (JNum 0) /\
  error (store final) = None /\
  trace final =
    [EvDispatch (actIsLoading true); EvQuery (fast_query cq);
     EvDispatch (actArtList p); EvDispatch (actIsLoadingExtended true);
     EvQuery (slow_query cq); EvDispatch (actArtList p')].
Proof.
  intros Hf Hr Hp Hs Hr'. cbv zeta.
  rewrite (run_slow_resolves client TE cq _ r r' p p' Hf Hr Hp Hs Hr').
  cbn [store trace published_state artList hits_info totalHits error].
  repeat split. exact (responseToState_no_error TE r' p' Hr').
Qed.

Lemma map_hits_ok TE (hits_ : list json) :
  Forall (fun hit => is_nil hit = false) hits_ ->
  map_hits TE hits_ = inr (map shaped_hit hits_).
Proof.
  induction 1 as [|hit rest Hhit _ IH]; [reflexivity|].
  cbn [map_hits map]. unfold shape_hit. rewrite Hhit, IH. reflexivity.
Qed.

Lemma map_hits_inv TE (hits_ : list json) :
  match map_hits TE hits_ with
  | inr hits =>
      Forall (fun hit => is_nil hit = false) hits_ /\
      hits = map shaped_hit hits_
  | inl e =>
      Exists (fun hit => is_nil hit = true) hits_ /\
      e = ThrowError (TE "hit_info")
  end.
Proof.
  induction hits_ as [|hit rest IH]; cbn [map_hits map].
  - split; [constructor|reflexivity].
  - unfold shape_hit. destruct (is_nil hit) eqn:Hhit.
    + split; [by constructor|reflexivity].
    + destruct (map_hits TE rest) as [e|hits].
      * destruct IH as [IH ->]. split; [by apply Exists_cons_tl|reflexivity].
      * destruct IH as [IH ->]. split; [by constructor|reflexivity].
Qed.

(** The two outcomes of [responseToState] and what each says about the
    response. *)
Lemma responseToState_inv TE (r : response) :
  match responseToState TE r with
  | inr p =>
      exists d a,
        data r = Some d /\ artifacts d = Some a /\
        Forall (fun hit => is_nil hit = false) (default [] (a_hits a)) /\
        p_hits p = map shaped_hit (default [] (a_hits a)) /\
        length (p_hits p) = length (default [] (a_hits a)) /\
        p_hits_info p = a_hits_info a /\
        p_error p = None
  | inl e =>
      (data r = None \/
       (exists d, data r = Some d /\ artifacts d = None) \/
       (exists d a, data r = Some d /\ artifacts d = Some a /\
                    Exists (fun hit => is_nil hit = true)
                      (default [] (a_hits a)))) /\
      exists property, e = ThrowError (TE property)
  end.
Proof.
  unfold responseToState, TypeError.
  destruct (data r) as [d|]; [|split; [by left|by eexists]].
  destruct (artifacts d) as [a|] eqn:Ha;
    [|split; [right; left; by exists d|by eexists]].
  pose proof (map_hits_inv TE (default [] (a_hits a))) as H.
  destruct (map_hits TE (default [] (a_hits a))) as [e|hits].
  - destruct H as [H ->]. split; [|by eexists].
    right; right. by exists d, a.
  - destruct H as [H ->]. exists d, a. cbn.
    rewrite length_map. by repeat split.
Qed.

(** X7: [responseToState] succeeds exactly when [data], its [artifacts] and
    every hit are not nil (nil [hits] count as no hit); it then keeps the
    hits in number and order, each cut down to its three properties, passes
    [hits_info] on untouched and sets no error.  Otherwise what it throws is
    a [TypeError]. *)
Theorem responseToState_spec TE (r : response) :
  match responseToState TE r with
  | inr p =>
      exists d a,
        data r = Some d /\ artifacts d = Some a /\
        Forall (fun hit => is_nil hit = false) (default [] (a_hits a)) /\
        p_hits p = map shaped_hit (default [] (a_hits a)) /\
        length (p_hits p) = length (default [] (a_hits a)) /\
        p_hits_info p = a_hits_info a /\
        p_error p = None
  | inl e =>
      (data r = None \/
       (exists d, data r = Some d /\ artifacts d = None) \/
       (exists d a, data r = Some d /\ artifacts d = Some a /\
                    Exists (fun hit => is_nil hit = true)
                      (default [] (a_hits a)))) /\
      exists property, e = ThrowError (TE property)
  end.
Proof. exact (responseToState_inv TE r). Qed.

(** X8: a fast response that cannot be shaped (nil [data], nil [artifacts]
    or a nil hit) is handled like a rejection: the load ends in the empty
    state with the message of the [TypeError], after three events and
    without a slow query. *)
Theorem unshaped_response_is_a_failure client TE cq s r :
  client (fast_query cq) = inr r ->
  (data r = None \/
   (exists d, data r = Some d /\ artifacts d = None) \/
   (exists d a, data r = Some d /\ artifacts d = Some a /\
                Exists (fun hit => is_nil hit = true)
                  (default [] (a_hits a)))) ->
  exists property,
    store (run_actLoad client TE cq s) = failed_state (TE property) /\
    trace (run_actLoad client TE cq s) =
      [EvDispatch (actIsLoading true); EvQuery (fast_query cq);
       EvDispatch (actArtList (failure_payload (TE property)))] /\
    queries_of (trace (run_actLoad client TE cq s)) = [fast_query cq].
Proof.
  intros Hf Hbad.
  pose proof (responseToState_inv TE r) as H.
  destruct (responseToState TE r) as [e|p] eqn:Hr.
  - destruct H as [_ [property ->]]. exists property.
    by rewrite (run_fast_unshaped client TE cq _ r _ Hf Hr).
  - exfalso. destruct H as (d & a & Hd & Ha & Hall & _).
    destruct Hbad as [H|[(d' & H1 & H2)|(d' & a' & H1 & H2 & H3)]];
      [congruence..|].
    assert (a' = a) as -> by congruence.
    apply Exists_exists in H3 as (hit & Hin & Hnil).
    rewrite Forall_forall in Hall. specialize (Hall hit Hin). congruence.
Qed.

(** X9: at the end of every load the total in the store is the one its
    [hits_info] gives; the [artList] reducer establishes this agreement and
    [isLoadingExtended] and [isLoading(false)] keep it. *)
Theorem total_agrees_with_hits_info client TE cq s :
  let agrees st :=
    totalHits st = Lodash.get (hits_info st) ["total"; "value"] (JNum 0) in
  agrees (store (run_actLoad client TE cq s)) /\
  (forall st p, agrees (artifactsReducer st (actArtList p))) /\
  (forall st b, agrees st ->
                agrees (artifactsReducer st (actIsLoadingExtended b))) /\
  (forall st, agrees st -> agrees (artifactsReducer st (actIsLoading false))).
Proof.
  cbv zeta. split; [|by repeat split].
  load_cases client TE cq; reflexivity.
Qed.

(** X10: the two flag reducers compose freely: [isLoading(false)] changes
    the [isLoading] flag and nothing else, it commutes with
    [isLoadingExtended], dispatching a flag action twice is dispatching it
    once, and [isLoading(false)] after [isLoading(true)] does not bring back
    the results, [hits_info] or error that [isLoading(true)] dropped. *)
Theorem flag_reducers_compose (s : IStateArtifacts) (b c : bool) :
  let R := artifactsReducer in
  R s (actIsLoading false) = set_isLoading false s /\
  R (R s (actIsLoading false)) (actIsLoadingExtended c)
    = R (R s (actIsLoadingExtended c)) (actIsLoading false) /\
  R (R s (actIsLoading true)) (actIsLoadingExtended c)
    = R (R s (actIsLoadingExtended c)) (actIsLoading true) /\
  R (R s (actIsLoading b)) (actIsLoading b) = R s (actIsLoading b) /\
  R (R s (actIsLoadingExtended c)) (actIsLoadingExtended c)
    = R s (actIsLoadingExtended c) /\
  R (R s (actIsLoading true)) (actIsLoading false)
    = {| error := None;
         artList := [];
         hits_info := empty_object;
         isLoading := false;
         totalHits := totalHits s;
         isLoadingExtended := isLoadingExtended s |}.
Proof. destruct s, b; by repeat split. Qed.

Lemma replay_app s evs evs' :
  replay s (evs ++ evs') = replay (replay s evs) evs'.
Proof. unfold replay. apply fold_left_app. Qed.

(** X11: an [artList] publish decides every field of the slice, so whatever
    was dispatched before it, by this load or by another one still running,
    the state after it is the one of its payload; later
    [isLoadingExtended] and [isLoading(false)] dispatches only move the
    flags. *)
Theorem last_publish_wins (s : IStateArtifacts) (before : list event)
    (p : artListPayload) (b : bool) :
  replay s (before ++ [EvDispatch (actArtList p)]) = published_state p /\
  replay s (before ++ [EvDispatch (actArtList p);
                       EvDispatch (actIsLoadingExtended b)])
    = set_isLoadingExtended b (published_state p) /\
  replay s (before ++ [EvDispatch (actArtList p);
                       EvDispatch (actIsLoading false)])
    = published_state p.
Proof. rewrite !replay_app. by repeat split. Qed.

(** ** The history list as a whole *)

Lemma push_lines_length e :
  length (push_lines e) = if revoke_gate e then 2%nat else 1%nat.
Proof.
  destruct (revoke_gate e) eqn:Hg.
  - apply revoke_gate_true in Hg as (ts & id & name & H).
    by rewrite (push_lines_truthy _ _ _ _ H).
  - by rewrite (push_lines_not_truthy _ Hg).
Qed.

Lemma history_lines_length history :
  length (history_lines history)
    = (length history
       + length (filter (fun e => revoke_gate e = true) history))%nat.
Proof.
  induction history as [|e history IH]; [reflexivity|].
  unfold history_lines in *. cbn [flat_map]. rewrite length_app, IH.
  rewrite push_lines_length, filter_cons.
  destruct (decide (revoke_gate e = true)) as [->|Hg]; cbn [length].
  - lia.
  - destruct (revoke_gate e); [done|lia].
Qed.

Lemma tagged_lines_count history :
  length (filter (fun line => l_action line = "tagged into")
            (history_lines history)) = length history.
Proof.
  induction history as [|e history IH]; [reflexivity|].
  unfold history_lines in *. cbn [flat_map]. rewrite filter_app, length_app, IH.
  destruct (revoke_gate e) eqn:Hg.
  - apply revoke_gate_true in Hg as (ts & id & name & H).
    by rewrite (push_lines_truthy _ _ _ _ H).
  - by rewrite (push_lines_not_truthy _ Hg).
Qed.

(** X12: the component renders nothing exactly when the history is nil;
    otherwise it lists one item per record plus one per record whose revoke
    fields pass the gate, so between once and twice the number of records,
    of which exactly one per record is a "tagged into" item; the items are
    the rendered entries of the timeline, in its order. *)
Theorem HistoryList_items format_local format_shift
    (history : option (list KojiBuildTagging)) :
  match history with
  | None => HistoryList format_local format_shift history = None
  | Some records =>
      exists log,
        HistoryList_log history = Some log /\
        HistoryList format_local format_shift history
          = Some (map (fun entry =>
                         (entry_key entry,
                          HistoryListEntry format_local format_shift entry))
                    log) /\
        length log
          = (length records
             + length (filter (fun e => revoke_gate e = true) records))%nat /\
        (length records <= length log <= 2 * length records)%nat /\
        length (filter (fun line => l_action line = "tagged into") log)
          = length records
  end.
Proof.
  destruct history as [records|]; [|reflexivity].
  exists (orderBy_time (history_lines records)).
  split; [reflexivity|]. split; [reflexivity|].
  rewrite !orderBy_time_perm, history_lines_length, tagged_lines_count.
  split; [reflexivity|]. split; [|reflexivity].
  pose proof (length_filter (fun e => revoke_gate e = true) records). lia.
Qed.

Lemma insert_by_time_sublist x s : s `sublist_of` insert_by_time x s.
Proof.
  induction s as [|y s IH]; cbn [insert_by_time].
  - apply sublist_nil_l.
  - destruct (l_time x <=? l_time y).
    + by apply sublist_cons.
    + by apply sublist_skip.
Qed.

Lemma insert_by_time_before a b s :
  b ∈ s -> l_time a <= l_time b -> [a; b] `sublist_of` insert_by_time a s.
Proof.
  induction s as [|y s IH]; [by rewrite elem_of_nil|].
  intros Hin Hle. cbn [insert_by_time].
  destruct (Z.leb_spec (l_time a) (l_time y)) as [Hay|Hay].
  - apply sublist_skip. by apply singleton_sublist_l.
  - apply sublist_cons. apply IH; [|done].
    apply elem_of_cons in Hin as [->|Hin]; [lia|done].
Qed.

Lemma orderBy_time_keeps_order lines a b :
  [a; b] `sublist_of` lines -> l_time a <= l_time b ->
  [a; b] `sublist_of` orderBy_time lines.
Proof.
  intros Hsub Hle. induction lines as [|x lines IH].
  - by apply sublist_nil_r in Hsub.
  - cbn [orderBy_time foldr]. fold (orderBy_time lines).
    apply sublist_cons_r in Hsub as [Hsub|(l' & [= <- <-] & Hb)].
    + etrans; [by apply IH|]. apply insert_by_time_sublist.
    + apply insert_by_time_before; [|done].
      rewrite orderBy_time_perm. by apply singleton_sublist_l.
Qed.

Lemma sorted_earlier_first (log : list TagActionHistoryType) a b :
  Sorted time_le log -> a ∈ log -> b ∈ log -> l_time a < l_time b ->
  [a; b] `sublist_of` log.
Proof.
  intros Hs Ha Hb Hlt. apply Sorted_StronglySorted in Hs; [|apply _].
  apply list_elem_of_split in Hb as (l1 & l2 & ->).
  apply StronglySorted_app in Hs as (Hcross & _ & Hs2).
  apply StronglySorted_cons in Hs2 as [Hb2 _].
  apply elem_of_app in Ha as [Ha|Ha].
  - apply list_elem_of_split in Ha as (l3 & l4 & ->).
    rewrite <- app_assoc. apply sublist_inserts_l. cbn [app].
    apply sublist_skip. apply sublist_inserts_l. apply sublist_skip.
    apply sublist_nil_l.
  - exfalso. apply elem_of_cons in Ha as [->|Ha]; [lia|].
    rewrite Forall_forall in Hb2. specialize (Hb2 a Ha).
    unfold time_le in Hb2. lia.
Qed.

(** X13: in the timeline an entry with an earlier time comes before one
    with a later time, and two entries with the same time keep the order in
    which they were pushed.  So the "tagged into" entry of a record comes
    before its "untagged from" entry when the tag was not revoked before it
    was created, and after it otherwise. *)
Theorem timeline_order (history : list KojiBuildTagging) :
  let lines := history_lines history in
  let log := orderBy_time lines in
  (forall a b, a ∈ lines -> b ∈ lines -> l_time a < l_time b ->
               [a; b] `sublist_of` log) /\
  (forall a b, [a; b] `sublist_of` lines -> l_time a = l_time b ->
               [a; b] `sublist_of` log) /\
  (forall e ts id name,
     e ∈ history -> revoke_truthy e ts id name ->
     (create_ts e <= ts ->
      [tagged_line e; untagged_line e ts id name] `sublist_of` log) /\
     (ts < create_ts e ->
      [untagged_line e ts id name; tagged_line e] `sublist_of` log)).
Proof.
  cbv zeta. split; [|split].
  - intros a b Ha Hb Hlt. apply sorted_earlier_first; [|by rewrite orderBy_time_perm..|done].
    apply orderBy_time_sorted.
  - intros a b Hsub Heq. apply orderBy_time_keeps_order; [done|lia].
  - intros e ts id name He Htr.
    assert (Hsub : [tagged_line e; untagged_line e ts id name]
                     `sublist_of` history_lines history).
    { apply list_elem_of_split in He as (h1 & h2 & ->).
      unfold history_lines. rewrite flat_map_app. cbn [flat_map].
      rewrite (push_lines_truthy _ _ _ _ Htr).
      apply sublist_inserts_l. by apply sublist_inserts_r. }
    split.
    + intros Hle. by apply orderBy_time_keeps_order.
    + intros Hlt. apply sorted_earlier_first; [apply orderBy_time_sorted|..|done];
        rewrite orderBy_time_perm; eapply elem_of_sublist; try exact Hsub.
      * apply list_elem_of_further, list_elem_of_here.
      * apply list_elem_of_here.
Qed.

Lemma history_lines_action history line :
  line ∈ history_lines history ->
  l_action line = "tagged into" \/ l_action line = "untagged from".
Proof.
  unfold history_lines. rewrite list_elem_of_In, in_flat_map.
  intros (e & _ & Hin). apply list_elem_of_In, push_lines_cases in Hin.
  destruct Hin as [->|[-> _]]; auto.
Qed.

(** Among the entries of a history, the key tells the action and the time. *)
Lemma entry_key_inj history x y :
  x ∈ history_lines history -> y ∈ history_lines history ->
  entry_key x = entry_key y ->
  l_action x = l_action y /\ l_time x = l_time y.
Proof.
  intros Hx Hy. unfold entry_key.
  destruct (history_lines_action _ _ Hx) as [-> | ->],
    (history_lines_action _ _ Hy) as [-> | ->]; intros H;
    try (cbn in H; discriminate H).
  - split; [done|]. apply String.app_inj in H. by apply (inj _) in H.
  - split; [done|]. apply String.app_inj in H. by apply (inj _) in H.
Qed.

(** X14: the keys given to React for the items of the history list are
    pairwise distinct exactly when no two entries of the timeline have both
    the same action and the same time; they are in particular when all the
    times differ. *)
Theorem history_keys_distinct format_local format_shift
    (history : list KojiBuildTagging) (log : list TagActionHistoryType)
    (items : list (string * string)) :
  HistoryList_log (Some history) = Some log ->
  HistoryList format_local format_shift (Some history) = Some items ->
  (NoDup (fst <$> items) <->
   NoDup ((fun entry => (l_action entry, l_time entry)) <$> log)) /\
  (NoDup (l_time <$> log) -> NoDup (fst <$> items)).
Proof.
  intros [= <-] [= <-].
  set (log := orderBy_time (history_lines history)).
  assert (Hkeys : fst <$> map (fun entry =>
                                 (l_action entry +:+ pretty (l_time entry),
                                  HistoryListEntry format_local format_shift
                                    entry)) log
                  = entry_key <$> log).
  { generalize log. intros l. induction l as [|x l IH]; [reflexivity|].
    cbn [map]. rewrite !fmap_cons. by rewrite IH. }
  rewrite Hkeys.
  assert (Hinj : forall x y, x ∈ log -> y ∈ log -> entry_key x = entry_key y ->
                             (l_action x, l_time x) = (l_action y, l_time y)).
  { intros x y Hx Hy Hk. unfold log in Hx, Hy.
    rewrite orderBy_time_perm in Hx, Hy.
    destruct (entry_key_inj history x y Hx Hy Hk) as [-> ->]. reflexivity. }
  assert (Hiff : NoDup (entry_key <$> log) <->
                 NoDup ((fun entry => (l_action entry, l_time entry)) <$> log)).
  { clearbody log. clear Hkeys. induction log as [|x l IH]; [by split; constructor|].
    rewrite !fmap_cons, !NoDup_cons. rewrite IH.
    2:{ intros a b Ha Hb. apply Hinj; by apply list_elem_of_further. }
    assert (Hx : entry_key x ∈ entry_key <$> l <->
                 (l_action x, l_time x)
                   ∈ (fun entry => (l_action entry, l_time entry)) <$> l).
    { rewrite !list_elem_of_fmap. split.
      - intros (y & Hk & Hy). exists y. split; [|done].
        apply Hinj; [apply list_elem_of_here|by apply list_elem_of_further|done].
      - intros (y & [= Ha Ht] & Hy). exists y. split; [|done].
        unfold entry_key. by rewrite Ha, Ht. }
    by rewrite Hx. }
  split; [exact Hiff|].
  intros Hnd. apply Hiff.
  apply (NoDup_fmap_1 snd). rewrite <- list_fmap_compose. exact Hnd.
Qed.

(** ** The build panels *)

(** X15: in the first tab of a Koji build the "no build information" alert
    never shows together with the spinner or with the build information.
    Once loading is over the alert shows exactly when there is no data or no
    build in it, and otherwise the first build, if it is not nil, is handed
    to the build information, to the tag list and (its tag listing) to the
    history list; while loading, builds of earlier data stay on display
    beside the spinner. *)
Theorem koji_build_panels (KojiBuildInfo : Type)
    (tag_listing : KojiBuildInfo -> option (list KojiBuildTagging))
    (loading : bool)
    (dataKojiTask : option (ArtifactsDetailedInfoKojiTaskData KojiBuildInfo)) :
  let tabs := ArtifactDetailedInfoKojiBuild KojiBuildInfo tag_listing
                loading dataKojiTask in
  let builds_ := chain (chain dataKojiTask (koji_task _)) (builds _) in
  (renders_NoData _ tabs && renders_LoadingData _ tabs = false) /\
  (renders_NoData _ tabs && renders_BuildInfo _ tabs = false) /\
  renders_LoadingData _ tabs = loading /\
  renders_TagsList _ tabs = renders_BuildInfo _ tabs /\
  (renders_NoData _ tabs = true <->
   loading = false /\ (builds_ = None \/ builds_ = Some [])) /\
  (forall build rest,
     builds_ = Some (Some build :: rest) ->
     renders_NoData _ tabs = false /\
     BuildInfo_build _ tabs = Some build /\
     TagsList_build _ tabs = Some build /\
     HistoryList_history _ tabs = tag_listing build) /\
  (renders_BuildInfo _ tabs = false ->
   HistoryList_log (HistoryList_history _ tabs) = None).
Proof.
  cbv zeta.
  unfold ArtifactDetailedInfoKojiBuild, renders_NoData, renders_LoadingData,
    renders_BuildInfo, renders_TagsList.
  cbn [NoData_show LoadingData_show BuildInfo_build TagsList_build
       HistoryList_history].
  destruct dataKojiTask as [[kt]|];
    [destruct kt as [[bs]|];
       [destruct bs as [[|[build|] rest]|]|]|];
    destruct loading; cbn.
  all: repeat match goal with |- _ /\ _ => split end.
  all: try done.
  all: try (intros [_ [H|H]]; discriminate H).
  all: try (intros [H _]; discriminate H).
  all: try (split; [done|]; (by left) || (by right)).
  all: try (intros build' rest' [= <- <-]; done).
  all: try (intros build' rest' [=]).
  all: try (intros H; apply bool_decide_eq_false in H; exfalso; apply H;
            by eexists).
  all: try (split; [intros _; split; [done|(by left) || (by right)]|done]).
  all: try (split; [done|intros [_ [H|H]]; discriminate H]).
  all: try (split; [done|intros [H _]; discriminate H]).
Qed.

Lemma isEmpty_value_nil (value : json) :
  is_nil value = true -> isEmpty_value value = true.
Proof. by destruct value. Qed.

Lemma module_view_closed_form (loading : bool)
    (data_ : option ArtifactsDetailedInfoModuleBuildData) :
  ArtifactDetailedInfoModuleBuild loading data_ =
    match loading, data_ with
    | false, Some d =>
        if isEmpty_value (mbs_build d) then NoBuildInformation
        else ModuleBuildTabs (mbs_build d)
    | _, _ => NoBuildInformation
    end.
Proof.
  unfold ArtifactDetailedInfoModuleBuild.
  destruct loading, data_ as [[build]|]; cbn [negb andb mbs_build]; try done.
  destruct (isEmpty_value build) eqn:He; cbn [negb]; [done|].
  destruct (is_nil build) eqn:Hn; [|done].
  by rewrite (isEmpty_value_nil _ Hn) in He.
Qed.

(** X16: the module build panel shows the "no build information" alert
    while loading, without data, and for an empty [mbs_build] (nil, or an
    object without properties); in every other case it shows the tabs of the
    build.  It never reaches the branch that logs "No build found in data."
    and never reads [mbs_build] of nil data. *)
Theorem module_build_view (loading : bool)
    (data_ : option ArtifactsDetailedInfoModuleBuildData) :
  let view := ArtifactDetailedInfoModuleBuild loading data_ in
  view <> NoBuildFound /\
  view <> ModuleBuildThrows /\
  (view = NoBuildInformation <->
   loading = true \/ data_ = None \/
   exists d, data_ = Some d /\ isEmpty_value (mbs_build d) = true) /\
  (forall build,
     view = ModuleBuildTabs build <->
     loading = false /\ data_ = Some (mkModuleBuildData build) /\
     isEmpty_value build = false) /\
  (forall d fields,
     loading = false -> data_ = Some d -> mbs_build d = JObj fields ->
     (view = NoBuildInformation <-> fields = ∅)).
Proof.
  cbv zeta. rewrite module_view_closed_form.
  split; [|split; [|split; [|split]]].
  - destruct loading, data_ as [[build]|]; try done.
    cbn [mbs_build]. by destruct (isEmpty_value build).
  - destruct loading, data_ as [[build]|]; try done.
    cbn [mbs_build]. by destruct (isEmpty_value build).
  - destruct loading, data_ as [[build]|]; cbn [mbs_build].
    + split; [by left|done].
    + split; [by left|done].
    + destruct (isEmpty_value build) eqn:He.
      * split; [|done]. intros _. right; right. by eexists.
      * split; [done|]. intros [H|[H|(d & [= <-] & H)]]; try done.
        cbn in H. congruence.
    + split; [|done]. intros _. right; by left.
  - intros b. destruct loading, data_ as [[build]|]; cbn [mbs_build].
    + split; [done|]. by intros [H _].
    + split; [done|]. by intros [H _].
    + destruct (isEmpty_value build) eqn:He.
      * split; [done|]. intros (_ & [= ->] & H). congruence.
      * split; [by intros [= ->]|]. by intros (_ & [= ->] & _).
    + split; [done|]. by intros (_ & H & _).
  - intros d fields -> -> Hobj. rewrite Hobj. cbn [isEmpty_value].
    destruct (Nat.eqb_spec (size fields) 0) as [Hz|Hnz].
    + split; [|done]. intros _. by apply map_size_empty_iff.
    + split; [done|]. intros ->. by rewrite map_size_empty in Hnz.
Qed.

(** ** The Greenwave metadata *)

Lemma value_of_str_nil (s : option string) :
  value_is_nil (value_of_str s) = false <-> is_Some s.
Proof.
  destruct s as [t|]; cbn.
  - split; [by eexists|done].
  - split; [done|]. by intros [? ?].
Qed.

Lemma and_then_value_nil (s : option string) (k : string -> item_value) :
  (forall t, value_is_nil (k t) = false) ->
  value_is_nil (and_then_value s k) = false <-> is_Some s.
Proof.
  intros Hk. destruct s as [t|]; cbn.
  - destruct (String.eqb t ""); cbn.
    + split; [by eexists|done].
    + split; [by eexists|]. intros _. apply Hk.
  - split; [done|]. by intros [? ?].
Qed.

Lemma and_then_str_is_Some (s : option string) (k : string -> string) :
  is_Some (and_then_str s k) <-> is_Some s.
Proof.
  destruct s as [t|]; cbn.
  - destruct (String.eqb t ""); split; by eexists.
  - split; by intros [? ?].
Qed.

Lemma group_labels f aChild label :
  label ∈ (fst <$> GreenwaveMetadata f aChild) <->
  exists v, (label, v) ∈ greenwave_items f aChild /\ value_is_nil v = false.
Proof.
  unfold GreenwaveMetadata. rewrite list_elem_of_fmap. split.
  - intros ([l v] & -> & Hin). apply list_elem_of_filter in Hin as [Hv Hin].
    by exists v.
  - intros (v & Hin & Hv). exists (label, v). split; [done|].
    by apply list_elem_of_filter.
Qed.

Ltac label_of_item :=
  rewrite group_labels; unfold greenwave_items; split;
  [ intros (v & Hin & Hv); revert Hin; rewrite !elem_of_cons, elem_of_nil;
    intros Hin;
    repeat (destruct Hin as [Hin|Hin]; [try discriminate Hin|]);
    try done; injection Hin as ->
  | intros Hsome; eexists; split;
    [ repeat first [apply list_elem_of_here | apply list_elem_of_further] |] ].

(** X17: the Greenwave panel lists a group for an item exactly when the
    field the item is built from is not nil, in the fixed order of the
    items and each at most once; without result and requirement it lists
    nothing.  An empty string is not nil: an empty [href] gives a
    "ResultsDB" group with empty text instead of a link. *)
Theorem greenwave_groups (timestampToTimestampWithTz : string -> string)
    (aChild : ChildGreenwave) :
  let groups := GreenwaveMetadata timestampToTimestampWithTz aChild in
  let labels := fst <$> groups in
  let result_ := cg_result aChild in
  let requirement := cg_requirement aChild in
  labels `sublist_of`
    ["ResultsDB"; "Timestamp"; "Req. type"; "Req. scenario"; "Req. source";
     "Outcome"; "Ref. URL"] /\
  NoDup labels /\
  ("ResultsDB" ∈ labels <-> is_Some (chain result_ gr_href)) /\
  ("Timestamp" ∈ labels <-> is_Some (chain result_ gr_submit_time)) /\
  ("Req. type" ∈ labels <-> is_Some (chain requirement rq_type)) /\
  ("Req. scenario" ∈ labels <-> is_Some (chain requirement rq_scenario)) /\
  ("Req. source" ∈ labels <-> is_Some (chain requirement rq_source)) /\
  ("Outcome" ∈ labels <-> is_Some (chain result_ gr_outcome)) /\
  ("Ref. URL" ∈ labels <-> is_Some (chain result_ gr_ref_url)) /\
  (result_ = None -> requirement = None -> groups = []) /\
  (chain result_ gr_href = Some "" -> ("ResultsDB", VText "") ∈ groups).
Proof.
  cbv zeta.
  assert (Hsub : (fst <$> GreenwaveMetadata timestampToTimestampWithTz aChild)
                   `sublist_of`
                 ["ResultsDB"; "Timestamp"; "Req. type"; "Req. scenario";
                  "Req. source"; "Outcome"; "Ref. URL"]).
  { unfold GreenwaveMetadata.
    change ["ResultsDB"; "Timestamp"; "Req. type"; "Req. scenario";
            "Req. source"; "Outcome"; "Ref. URL"]
      with (fst <$> greenwave_items timestampToTimestampWithTz aChild).
    apply fmap_sublist, sublist_filter. }
  split; [exact Hsub|]. split.
  { eapply sublist_NoDup; [|exact Hsub].
    apply (bool_decide_unpack _). reflexivity. }
  repeat match goal with |- _ /\ _ => split end.
  - label_of_item.
    + by apply and_then_value_nil in Hv.
    + by apply and_then_value_nil.
  - label_of_item.
    + apply and_then_value_nil in Hv; [|done].
      by rewrite !and_then_str_is_Some in Hv.
    + apply and_then_value_nil; [done|]. by rewrite !and_then_str_is_Some.
  - label_of_item; by apply value_of_str_nil.
  - label_of_item; by apply value_of_str_nil.
  - label_of_item.
    + by apply and_then_value_nil in Hv.
    + by apply and_then_value_nil.
  - label_of_item; by apply value_of_str_nil.
  - label_of_item.
    + by apply and_then_value_nil in Hv.
    + by apply and_then_value_nil.
  - unfold GreenwaveMetadata, greenwave_items. by intros -> ->.
  - intros Hhref. unfold GreenwaveMetadata. apply list_elem_of_filter.
    split; [done|]. unfold greenwave_items. rewrite Hhref.
    apply list_elem_of_here.
Qed.

(** ** The test result metadata *)

(** X18: the metadata panel renders exactly when there are an artifact and
    a selected test.  The "Greenwave" label is shown exactly when a
    Greenwave block is, the "UMB" label exactly when a UMB block is, each
    label at most once and "Greenwave" first; a child that is both at once
    gets the two blocks of its two halves, and a child that none of the
    guards recognizes gets neither label nor block. *)
Theorem test_result_metadata (ArtifactChild ChildTestMsg A : Type)
    (isG isT isGT : ArtifactChild -> bool)
    (as_greenwave gs : ArtifactChild -> ChildGreenwave)
    (as_test_msg ms : ArtifactChild -> ChildTestMsg)
    (artifact : option A) (selectedTest : option ArtifactChild) :
  let panel := TestResultMetadata ArtifactChild ChildTestMsg isG isT isGT
                 as_greenwave as_test_msg gs ms artifact selectedTest in
  (is_Some panel <-> is_Some artifact /\ is_Some selectedTest) /\
  (forall labels blocks aChild,
     panel = Some (labels, blocks) -> selectedTest = Some aChild ->
     ("Greenwave" ∈ labels <-> exists c, GreenwaveBlock _ c ∈ blocks) /\
     ("UMB" ∈ labels <-> exists c, KaiBlock _ c ∈ blocks) /\
     labels `sublist_of` ["Greenwave"; "UMB"] /\
     (isGT aChild = true ->
      [GreenwaveBlock _ (gs aChild); KaiBlock _ (ms aChild)]
        `sublist_of` blocks) /\
     (isG aChild = false -> isT aChild = false -> isGT aChild = false ->
      labels = [] /\ blocks = [])).
Proof.
  cbv zeta. unfold TestResultMetadata. split.
  - destruct artifact, selectedTest; split; try done;
      try (by intros [[? ?] [? ?]]); by intros [? ?].
  - intros labels blocks aChild Hpanel ->.
    destruct artifact; [|done]. injection Hpanel as <- <-.
    unfold SourceLabels, metadata_blocks.
    destruct (isG aChild), (isT aChild), (isGT aChild); cbn.
    all: repeat match goal with |- _ /\ _ => split end.
    all: try match goal with
         | |- _ <-> _ =>
             split;
             [ intros H;
               first [ by (eexists;
                           repeat first [apply list_elem_of_here
                                        |apply list_elem_of_further])
                     | exfalso; revert H;
                       rewrite ?elem_of_cons, ?elem_of_nil; intros H;
                       repeat (destruct H as [H|H]; try done) ]
             | intros [c H];
               first [ by repeat first [apply list_elem_of_here
                                       |apply list_elem_of_further]
                     | exfalso; revert H;
                       rewrite ?elem_of_cons, ?elem_of_nil; intros H;
                       repeat (destruct H as [H|H]; try done) ] ]
         end.
    all: try done.
    all: try (intros _).
    all: repeat first [apply sublist_nil_l | apply sublist_skip
                      | apply sublist_cons].
Qed.

(** ** Concrete runs of the further properties *)

Lemma error_iff_try_throws_witness :
  error (store (run_actLoad client_resolves sample_TypeError_message
                  sample_query state_after_fast_publish)) = None /\
  store (run_actLoad client_slow_rejects sample_TypeError_message
           sample_query INITIAL_STATE) = failed_state "503".
Proof.
  split.
  - pose proof (error_iff_try_throws client_resolves sample_TypeError_message
                  sample_query state_after_fast_publish) as H.
    cbv zeta in H. exact (proj2 (proj1 H) eq_refl).
  - pose proof (error_iff_try_throws client_slow_rejects
                  sample_TypeError_message sample_query INITIAL_STATE) as H.
    cbv zeta in H. exact (proj1 (proj2 H "503" eq_refl)).
Defined.

Lemma actLoad_queries_witness :
  0 <= v_paginationFrom (variables (slow_query sample_query)) /\
  v_paginationFrom (variables (slow_query sample_query)) = (2 - 1) * 20.
Proof.
  pose proof (actLoad_queries client_resolves sample_TypeError_message
                sample_query INITIAL_STATE) as H.
  cbv zeta in H. destruct H as [_ H].
  assert (Hin : slow_query sample_query
                  ∈ queries_of (trace (run_actLoad client_resolves
                                         sample_TypeError_message sample_query
                                         INITIAL_STATE))).
  { vm_compute. apply list_elem_of_further, list_elem_of_here. }
  destruct (H (slow_query sample_query) Hin) as (_ & _ & Hfrom & Hpos).
  split; [|exact Hfrom]. apply Hpos; vm_compute; discriminate.
Defined.

Lemma extended_loading_state_witness :
  isLoadingExtended
    (replay INITIAL_STATE
       (take 4 (trace (run_actLoad client_resolves sample_TypeError_message
                         sample_query INITIAL_STATE)))) = true.
Proof.
  refine (proj1 (proj2 (proj2 (proj2 (proj2
            (extended_loading_state client_resolves sample_TypeError_message
               sample_query INITIAL_STATE fast_response _ eq_refl eq_refl
               _)))))).
  discriminate.
Defined.

Lemma slow_result_replaces_fast_witness :
  length (artList (store (run_actLoad client_resolves sample_TypeError_message
                            sample_query INITIAL_STATE))) = 5%nat.
Proof.
  refine (f_equal length
            (proj1 (slow_result_replaces_fast client_resolves
                      sample_TypeError_message sample_query INITIAL_STATE
                      fast_response _ slow_response _ eq_refl eq_refl _
                      eq_refl eq_refl))).
  discriminate.
Defined.

Lemma unshaped_response_is_a_failure_witness :
  exists property,
    store (run_actLoad client_unshaped sample_TypeError_message sample_query
             state_after_fast_publish)
      = failed_state (sample_TypeError_message property) /\
    trace (run_actLoad client_unshaped sample_TypeError_message sample_query
             state_after_fast_publish)
      = [EvDispatch (actIsLoading true); EvQuery (fast_query sample_query);
         EvDispatch (actArtList
                       (failure_payload (sample_TypeError_message property)))]
    /\
    queries_of (trace (run_actLoad client_unshaped sample_TypeError_message
                         sample_query state_after_fast_publish))
      = [fast_query sample_query].
Proof.
  apply (unshaped_response_is_a_failure client_unshaped
           sample_TypeError_message sample_query state_after_fast_publish
           (mkResponse (Some (mkData None)))).
  - reflexivity.
  - right; left. exists (mkData None). split; reflexivity.
Defined.

Lemma total_agrees_with_hits_info_witness :
  totalHits (artifactsReducer state_after_fast_publish
               (actIsLoadingExtended true))
    = Lodash.get (hits_info (artifactsReducer state_after_fast_publish
                               (actIsLoadingExtended true)))
        ["total"; "value"] (JNum 0).
Proof.
  pose proof (total_agrees_with_hits_info client_resolves
                sample_TypeError_message sample_query INITIAL_STATE) as H.
  cbv zeta beta in H. destruct H as (_ & _ & H & _).
  apply (H state_after_fast_publish true). reflexivity.
Defined.

Lemma timeline_order_witness :
  [untagged_line tagging_revoked_before_created 400 2 "b";
   tagged_line tagging_revoked_before_created]
    `sublist_of`
  orderBy_time (history_lines [tagging_full_revoke;
                               tagging_revoked_before_created]).
Proof.
  pose proof (timeline_order [tagging_full_revoke;
                              tagging_revoked_before_created]) as H.
  cbv zeta in H. destruct H as (_ & _ & H).
  apply (H tagging_revoked_before_created 400 2 "b").
  - apply list_elem_of_further, list_elem_of_here.
  - repeat split; discriminate.
  - reflexivity.
Defined.

Lemma history_keys_distinct_witness :
  NoDup (fst <$> [("tagged into100", "100 100 tagged into t1 by a ");
                  ("untagged from200", "200 200 untagged from t1 by b ")]).
Proof.
  refine (proj2 (history_keys_distinct pretty pretty [tagging_full_revoke]
                   _ _ eq_refl eq_refl) _).
  apply (bool_decide_unpack _). reflexivity.
Defined.

Lemma koji_build_panels_witness :
  renders_NoData _
    (ArtifactDetailedInfoKojiBuild KojiBuildTagging (fun b => Some [b])
       false sample_koji_data) = false /\
  HistoryList_history _
    (ArtifactDetailedInfoKojiBuild KojiBuildTagging (fun b => Some [b])
       false sample_koji_data) = Some [tagging_full_revoke].
Proof.
  pose proof (koji_build_panels KojiBuildTagging (fun b => Some [b]) false
                sample_koji_data) as H.
  cbv zeta in H. destruct H as (_ & _ & _ & _ & _ & H & _).
  destruct (H tagging_full_revoke [] eq_refl) as (H1 & _ & _ & H2).
  split; [exact H1|exact H2].
Defined.

Lemma module_build_view_witness :
  ArtifactDetailedInfoModuleBuild false sample_module_data
    = ModuleBuildTabs (JObj {[ "id" := JNum 7 ]}) /\
  ArtifactDetailedInfoModuleBuild false
    (Some (mkModuleBuildData empty_object)) = NoBuildInformation.
Proof.
  split.
  - pose proof (module_build_view false sample_module_data) as H.
    cbv zeta in H. destruct H as (_ & _ & _ & H & _).
    apply H. repeat split; reflexivity.
  - pose proof (module_build_view false
                  (Some (mkModuleBuildData empty_object))) as H.
    cbv zeta in H. destruct H as (_ & _ & _ & _ & H).
    apply (H (mkModuleBuildData empty_object) ∅); reflexivity.
Defined.

Lemma greenwave_groups_witness :
  "Timestamp" ∈ (fst <$> GreenwaveMetadata (fun t => t) sample_greenwave_child)
  /\
  ("ResultsDB", VText "")
    ∈ GreenwaveMetadata (fun t => t) sample_greenwave_child.
Proof.
  pose proof (greenwave_groups (fun t => t) sample_greenwave_child) as H.
  cbv zeta in H. destruct H as (_ & _ & _ & Ht & _ & _ & _ & _ & _ & _ & Hr).
  split.
  - apply Ht. by eexists.
  - apply Hr. reflexivity.
Defined.

Lemma test_result_metadata_witness :
  "Greenwave" ∈ ["Greenwave"] /\
  is_Some (TestResultMetadata ChildGreenwave unit (fun _ => true)
             (fun _ => false) (fun _ => false) (fun c => c) (fun _ => tt)
             (fun c => c) (fun _ => tt) (Some sample_query)
             (Some sample_greenwave_child)).
Proof.
  pose proof (test_result_metadata ChildGreenwave unit CurrentQuery
                (fun _ => true) (fun _ => false) (fun _ => false)
                (fun c => c) (fun c => c) (fun _ => tt) (fun _ => tt)
                (Some sample_query) (Some sample_greenwave_child)) as H.
  cbv zeta in H. destruct H as [Hsome H]. split.
  - apply (H ["Greenwave"] [GreenwaveBlock unit sample_greenwave_child]
             sample_greenwave_child eq_refl eq_refl).
    exists sample_greenwave_child. apply list_elem_of_here.
  - apply Hsome. split; by eexists.
Defined.
